(** * Unified hostel chatbot (main.py): greeting gate, relevance filters,
      response composer and chat adapter.

    Python [str] values are sequences of Unicode code points; [len], [in],
    [strip] and [split] all work on code points, so a string is modelled as
    a list of code points.  The collaborators that live outside main.py
    (the semantic engine [api.answer_semantic_question], the knowledge base
    [app.hostel_chatbot], the normalizer [api.preprocess_text]) and the
    runtime's full-Unicode [str.lower] are section variables. *)

From Stdlib Require Import List NArith Ascii String Bool Arith Lia.
Import ListNotations.

Set Implicit Arguments.

(* ================================================================== *)
(** ** Python strings *)
(* ================================================================== *)

Module PyStr.

Local Open Scope N_scope.

(** A code point, and a string as the list of its code points. *)
Abbreviation codepoint := N (only parsing).
Abbreviation pystr := (list N) (only parsing).

(** An ASCII literal of the source, as code points. *)
Definition py (s : string) : pystr := map N_of_ascii (list_ascii_of_string s).

(** [not x] on a string or a list: true exactly when it is empty. *)
Definition is_empty {A : Type} (s : list A) : bool :=
  match s with [] => true | _ :: _ => false end.

(** [a == b] on strings. *)
Fixpoint str_eqb (a b : pystr) : bool :=
  match a, b with
  | [], [] => true
  | x :: a', y :: b' => N.eqb x y && str_eqb a' b'
  | _, _ => false
  end.

(** [str.isspace] on one code point: the whitespace set that [strip()] and
    [split()] without arguments use. *)
Definition isspace (c : codepoint) : bool :=
  ((0x09 <=? c) && (c <=? 0x0D)) || ((0x1C <=? c) && (c <=? 0x20))
  || (c =? 0x85) || (c =? 0xA0) || (c =? 0x1680)
  || ((0x2000 <=? c) && (c <=? 0x200A))
  || (c =? 0x2028) || (c =? 0x2029) || (c =? 0x202F) || (c =? 0x205F)
  || (c =? 0x3000).

Fixpoint lstrip (s : pystr) : pystr :=
  match s with
  | [] => []
  | c :: s' => if isspace c then lstrip s' else s
  end.

Definition rstrip (s : pystr) : pystr := rev (lstrip (rev s)).

(** [s.strip()] *)
Definition strip (s : pystr) : pystr := rstrip (lstrip s).

(** [s.split()]: the maximal runs of non-whitespace, in order.  [cur] is the
    run being read, most recent code point first. *)
Fixpoint split_from (cur : pystr) (s : pystr) : list pystr :=
  match s with
  | [] => if is_empty cur then [] else [rev cur]
  | c :: s' =>
      if isspace c
      then (if is_empty cur then split_from [] s' else rev cur :: split_from [] s')
      else split_from (c :: cur) s'
  end.

Definition split (s : pystr) : list pystr := split_from [] s.

Fixpoint starts_with (p s : pystr) : bool :=
  match p, s with
  | [], _ => true
  | _ :: _, [] => false
  | x :: p', y :: s' => N.eqb x y && starts_with p' s'
  end.

(** [p in s] on strings: [p] occurs in [s] as a contiguous run. *)
Fixpoint contains (p s : pystr) : bool :=
  starts_with p s ||
  match s with
  | [] => false
  | _ :: s' => contains p s'
  end.

(** [sep.join(parts)] *)
Fixpoint join (sep : pystr) (parts : list pystr) : pystr :=
  match parts with
  | [] => []
  | [p] => p
  | p :: rest => p ++ sep ++ join sep rest
  end.

(** [str.lower] on text that is ASCII only: A-Z go to a-z, every other code
    point stays.  The concrete lowering used where statements are evaluated
    on ASCII inputs. *)
Definition ascii_lower_char (c : codepoint) : codepoint :=
  if (0x41 <=? c) && (c <=? 0x5A) then c + 0x20 else c.

Definition ascii_lower (s : pystr) : pystr := map ascii_lower_char s.

(** ASCII code points other than A-Z: lowering never changes them, whatever
    stands around them. *)
Definition ascii_nonupper (c : codepoint) : bool :=
  (c <? 0x80) && negb ((0x41 <=? c) && (c <=? 0x5A)).

(** A string that neither starts nor ends with whitespace (and is not
    empty): stripping cannot cut into it. *)
Definition solid (p : pystr) : bool :=
  negb (isspace (hd 0x20 p)) && negb (isspace (hd 0x20 (rev p))).

End PyStr.
Import PyStr.

(** Truth value of an optional string ([if x:]): false on [None] and on
    the empty string. *)
Definition truthy (o : option pystr) : bool :=
  match o with
  | Some (_ :: _) => true
  | _ => false
  end.

(** [str(x) if x else ""] *)
Definition str_or_empty (o : option pystr) : pystr :=
  match o with
  | Some s => s
  | None => []
  end.

(** [[w for w in words if len(w) > 2]] *)
Definition significant (words : list pystr) : list pystr :=
  filter (fun w => 2 <? List.length w)%nat words.

(* ================================================================== *)
(** ** Fixed strings of the source *)
(* ================================================================== *)

(** [greetings] of [is_greeting]. *)
Definition greetings : list pystr :=
  [py "hi"; py "hello"; py "hey"; py "hai";
   py "good morning"; py "good afternoon"; py "good evening"].

(** The list blocked inside [api_answer]. *)
Definition api_failure_phrases : list pystr :=
  [py "sorry"; py "couldn't understand"; py "not understand";
   py "no data"; py "not available"].

(** [invalid_phrases] of [is_valid_app_answer]. *)
Definition invalid_phrases : list pystr :=
  [py "sorry"; py "couldn't understand"; py "could not understand";
   py "not understand"].

(** U+1F44B, then the greeting text. *)
Definition greeting_response : pystr :=
  0x1F44B%N :: py " Hello! How can I help you with hostel information?".

(** U+274C, then the fallback text. *)
Definition fallback_response : pystr :=
  0x274C%N ::
  py " Sorry, I couldn't find an answer. Please ask more clearly or provide more details.".

(** U+1F517 and a space: the prefix of the link paragraph. *)
Definition link_prefix : pystr := [0x1F517; 0x20]%N.

(** U+1F5BC U+FE0F and a space: the prefix of the image paragraph. *)
Definition image_prefix : pystr := [0x1F5BC; 0xFE0F; 0x20]%N.

(** Two line feeds: the separator of the final join. *)
Definition paragraph_break : pystr := [0x0A; 0x0A]%N.

(** The paragraphs the composer is said to emit, written flat: each of the
    four strings gives one paragraph when it is present, in this order. *)
Definition present (s : pystr) : list pystr :=
  if is_empty s then [] else [s].

Definition prefixed (prefix s : pystr) : list pystr :=
  if is_empty s then [] else [prefix ++ s].

Definition paragraphs_in_order
  (api_ans : option pystr) (app_ans app_link app_img : pystr) : list pystr :=
  present (str_or_empty api_ans) ++ present app_ans
  ++ prefixed link_prefix app_link ++ prefixed image_prefix app_img.

(** A call that leaves main.py: to the semantic engine or to the knowledge
    base, with the question passed. *)
Inductive call : Type :=
| AskApi (question : pystr)
| AskApp (question : pystr).

(** One entry of the chat history: [{"role": ..., "content": ...}]. *)
Record turn : Type := { role : pystr; content : pystr }.

(* ================================================================== *)
(** ** A small instance to evaluate the program on *)
(* ================================================================== *)

Module Demo.

(** The world counts the calls answered so far. *)
Definition engine (question : pystr) (w : nat) : option pystr * nat :=
  (if contains (py "fee") question
   then Some (py "The mess fee is 2000 per month")
   else if contains (py "gym") question then Some (py "Gym")
   else Some (py "Please ask about the mess fee or the gym"),
   S w).

Definition knowledge_base (question : pystr) (w : nat)
  : (option pystr * option pystr * option pystr) * nat :=
  (if contains (py "fee") question
   then (Some (py "Mess fee can be paid online"),
         Some (py "https://hostel.example/fees"), Some (py "fees.png"))
   else if contains (py "gym") question
   then (Some (py "Gym"), Some (py "https://hostel.example/gym"), None)
   else if contains (py "ok") question
   then (Some (py "It is ok to cook in the hostel"),
         Some (py "https://hostel.example/rules"), None)
   else (Some (py "Sorry, I could not understand your question"),
         None, None),
   S w).

(** Lowercase, tokens separated by one space. *)
Definition normalize (text : pystr) : pystr :=
  join (py " ") (split (ascii_lower text)).

End Demo.

(* ================================================================== *)
(** ** The program *)
(* ================================================================== *)

Section Chatbot.

(** Whatever the two answerers keep between calls. *)
Variable World : Type.

(** [str.lower] of the runtime (full Unicode lowering). *)
Variable lower : pystr -> pystr.

(** [api.preprocess_text]; its module is not part of main.py. *)
Variable preprocess_text : pystr -> pystr.

(** [api.answer_semantic_question(question, df_api, model_api, threshold=0.60)]:
    [None] or an answer text. *)
Variable answer_semantic_question : pystr -> World -> option pystr * World.

(** [app.hostel_chatbot(question)]: answer, link and image, each possibly
    absent. *)
Variable hostel_chatbot :
  pystr -> World -> (option pystr * option pystr * option pystr) * World.

(** The state threaded through one request: the answerers' world and the
    log of the calls made to them, oldest first. *)
Record state : Type := { world : World; calls : list call }.

Definition M (A : Type) : Type := state -> A * state.

Definition ret {A : Type} (a : A) : M A := fun s => (a, s).

Definition bind {A B : Type} (c : M A) (k : A -> M B) : M B :=
  fun s => let (a, s') := c s in k a s'.

Notation "x <- c ;; k" := (bind c (fun x => k))
  (at level 61, c at next level, right associativity).

Definition ask_api (question : pystr) : M (option pystr) :=
  fun s =>
    let (r, w) := answer_semantic_question question (world s) in
    (r, {| world := w; calls := calls s ++ [AskApi question] |}).

Definition ask_app (question : pystr)
  : M (option pystr * option pystr * option pystr) :=
  fun s =>
    let (r, w) := hostel_chatbot question (world s) in
    (r, {| world := w; calls := calls s ++ [AskApp question] |}).

(** main.py, [is_greeting]. *)
Definition is_greeting (text : pystr) : bool :=
  let text := lower (strip text) in
  existsb (str_eqb text) greetings.

(** main.py, [is_meaningful_answer]; [user_query] defaults to [None]. *)
Definition is_meaningful_answer
  (answer : option pystr) (user_query : option pystr) : bool :=
  match answer with
  | None => false
  | Some a =>
      let answer_str := strip a in
      if is_empty answer_str then false
      else if (List.length answer_str <=? 3)%nat then false
      else if truthy user_query then
        let query_words :=
          significant (split (lower (str_or_empty user_query))) in
        if is_empty query_words then false
        else if negb (existsb (fun word => contains word (lower answer_str))
                              query_words)
        then false
        else true
      else true
  end.

(** main.py, [api_answer]. *)
Definition api_answer (question : pystr) : M (option pystr) :=
  if is_greeting question then ret None
  else
    result <- ask_api question ;;
    match result with
    | None => ret None
    | Some r =>
        let answer_str := lower (strip r) in
        if existsb (fun x => contains x answer_str) api_failure_phrases
        then ret None
        else
          let query_words := significant (split (lower question)) in
          if is_empty query_words then ret None
          else
            let overlap :=
              List.length
                (filter (fun w => contains w answer_str) query_words) in
            if (overlap =? 0)%nat then ret None
            else ret (Some r)
    end.

(** main.py, [is_valid_app_answer]. *)
Definition is_valid_app_answer (answer : option pystr) : bool :=
  match answer with
  | None => false
  | Some a =>
      let answer_str := lower (strip a) in
      if is_empty answer_str then false
      else negb (existsb (fun phrase => contains phrase answer_str)
                         invalid_phrases)
  end.

(** [unified_chatbot], the step after [api_answer]: an answer that is not
    meaningful for the normalized query becomes [None]. *)
Definition keep_api (api_ans : option pystr) (normalized_query : pystr)
  : option pystr :=
  if negb (is_meaningful_answer api_ans (Some normalized_query))
  then None else api_ans.

(** The condition of [unified_chatbot] under which the three strings of the
    knowledge base are emptied. *)
Definition app_rejected
  (app_ans normalized_query : pystr) (user_query_words : list pystr) : bool :=
  negb (is_valid_app_answer (Some app_ans))
  || negb (is_meaningful_answer (Some app_ans) (Some normalized_query))
  || is_empty user_query_words.

(** [unified_chatbot], the step after [app.hostel_chatbot]: absent values
    become empty strings, then all three are emptied together when the
    answer is rejected. *)
Definition keep_app
  (raw : option pystr * option pystr * option pystr)
  (normalized_query : pystr) (user_query_words : list pystr)
  : pystr * pystr * pystr :=
  let '(app_ans, app_link, app_img) := raw in
  let app_ans := str_or_empty app_ans in
  let app_link := str_or_empty app_link in
  let app_img := str_or_empty app_img in
  if app_rejected app_ans normalized_query user_query_words
  then ([], [], [])
  else (app_ans, app_link, app_img).

(** [response_parts] of [unified_chatbot] once both answers are filtered. *)
Definition response_parts
  (api_ans : option pystr) (app : pystr * pystr * pystr) : list pystr :=
  let '(app_ans, app_link, app_img) := app in
  (if truthy api_ans then [str_or_empty api_ans] else [])
  ++ (if is_empty app_ans then []
      else [app_ans]
           ++ (if is_empty app_link then [] else [link_prefix ++ app_link])
           ++ (if is_empty app_img then [] else [image_prefix ++ app_img])).

(** The end of [unified_chatbot]: the fallback when no part is left, the
    parts joined by a blank line otherwise. *)
Definition render (parts : list pystr) : pystr :=
  if is_empty parts then fallback_response else join paragraph_break parts.

(** [unified_chatbot] below the greeting test, on the normalized query:
    both answerers are asked, the remote one first, and their answers
    filtered into [response_parts]. *)
Definition answer_parts (normalized_query : pystr) : M (list pystr) :=
  let user_query_words := significant (split normalized_query) in
  api_ans <- api_answer normalized_query ;;
  let api_ans := keep_api api_ans normalized_query in
  raw <- ask_app normalized_query ;;
  let app := keep_app raw normalized_query user_query_words in
  ret (response_parts api_ans app).

(** main.py, [unified_chatbot]. *)
Definition unified_chatbot (user_query : pystr) : M pystr :=
  if is_greeting user_query then ret greeting_response
  else
    let normalized_query := preprocess_text user_query in
    parts <- answer_parts normalized_query ;;
    ret (render parts).

(** [history or []] *)
Definition history_or_empty (history : option (list turn)) : list turn :=
  match history with
  | Some h => h
  | None => []
  end.

(** main.py, [chat]: the new history and the value the input box is reset
    to. *)
Definition chat (user_message : pystr) (history : option (list turn))
  : M (list turn * pystr) :=
  let history := history_or_empty history in
  if is_empty (strip user_message) then ret (history, [])
  else
    bot_text <- unified_chatbot user_message ;;
    ret (history
           ++ [ {| role := py "user"; content := user_message |};
                {| role := py "assistant"; content := bot_text |} ],
         []).

(* ------------------------------------------------------------------ *)
(** *** [chat] on list objects

    A Python list is an object: [history or []] keeps the caller's list
    when it is non-empty and makes a new list otherwise, and [append]
    changes the list it is called on.  The lists that exist are kept by
    address. *)

Definition heap : Type := list (list turn).

(** The list at an address. *)
Definition deref (h : heap) (l : nat) : list turn := nth l h [].

(** A new list object holding [v]: its address, and the heap with it. *)
Definition alloc (h : heap) (v : list turn) : nat * heap :=
  (List.length h, h ++ [v]).

(** The list at address [l] replaced by [v]. *)
Fixpoint set_list (h : heap) (l : nat) (v : list turn) : heap :=
  match h, l with
  | [], _ => []
  | _ :: h', O => v :: h'
  | x :: h', S l' => x :: set_list h' l' v
  end.

(** [lst.append(t)] on the list at address [l]. *)
Definition append_turn (h : heap) (l : nat) (t : turn) : heap :=
  set_list h l (deref h l ++ [t]).

(** [history or []]: the address passed when its list is non-empty, a new
    empty list when the list is empty or [None] was passed. *)
Definition history_or_new (history : option nat) (h : heap) : nat * heap :=
  match history with
  | Some l => if is_empty (deref h l) then alloc h [] else (l, h)
  | None => alloc h []
  end.

(** main.py, [chat], with the history passed and returned by address. *)
Definition chat_in_place
  (user_message : pystr) (history : option nat) (h : heap)
  : M ((nat * pystr) * heap) :=
  let (history, h) := history_or_new history h in
  if is_empty (strip user_message) then ret ((history, []), h)
  else
    bot_text <- unified_chatbot user_message ;;
    let h :=
      append_turn h history
                  {| role := py "user"; content := user_message |} in
    let h :=
      append_turn h history
                  {| role := py "assistant"; content := bot_text |} in
    ret ((history, []), h).

(* ================================================================== *)
(** ** Facts about strings *)
(* ================================================================== *)

Lemma str_eqb_eq (a b : pystr) : str_eqb a b = true <-> a = b.
Proof.
  revert b; induction a as [|x a IH]; intros [|y b]; simpl;
    try (split; [discriminate | discriminate]); try tauto.
  rewrite andb_true_iff, N.eqb_eq, IH.
  split; [intros [-> ->]; reflexivity | intros E; inversion E; auto].
Qed.

Lemma in_list_iff (t : pystr) (l : list pystr) :
  existsb (str_eqb t) l = true <-> In t l.
Proof.
  rewrite existsb_exists; split.
  - intros (x & Hin & E). apply str_eqb_eq in E. now subst.
  - intros Hin. exists t. split; [assumption | now apply str_eqb_eq].
Qed.

Lemma starts_with_spec (p s : pystr) :
  starts_with p s = true <-> exists b, s = p ++ b.
Proof.
  revert s; induction p as [|x p IH]; intros s; simpl.
  - split; [intros _; now exists s | reflexivity].
  - destruct s as [|y s].
    + split; [discriminate | intros [b E]; discriminate].
    + rewrite andb_true_iff, N.eqb_eq, IH. split.
      * intros [-> [b ->]]. now exists b.
      * intros [b E]. inversion E; subst. split; [reflexivity | now exists b].
Qed.

Lemma contains_spec (p s : pystr) :
  contains p s = true <-> exists a b, s = a ++ p ++ b.
Proof.
  induction s as [|y s IH].
  - simpl. rewrite orb_false_r, starts_with_spec. split.
    + intros [b E]. now exists [], b.
    + intros (a & b & E). destruct a; [now exists b | discriminate].
  - cbn [contains]. rewrite orb_true_iff, starts_with_spec, IH. split.
    + intros [[b E] | (a & b & E)].
      * now exists [], b.
      * exists (y :: a), b. simpl. now rewrite E.
    + intros (a & b & E). destruct a as [|z a].
      * left. now exists b.
      * right. inversion E; subst. now exists a, b.
Qed.

Lemma lstrip_nil_iff (s : pystr) :
  lstrip s = [] <-> forallb isspace s = true.
Proof.
  induction s as [|c s IH]; simpl; [tauto|].
  destruct (isspace c); simpl; [assumption | split; discriminate].
Qed.

Lemma lstrip_head (s : pystr) :
  lstrip s = [] \/ exists c t, lstrip s = c :: t /\ isspace c = false.
Proof.
  induction s as [|c s IH]; simpl; [now left|].
  destruct (isspace c) eqn:E; [assumption | right; now exists c, s].
Qed.

Lemma forallb_rev (A : Type) (f : A -> bool) (l : list A) :
  forallb f (rev l) = forallb f l.
Proof.
  induction l as [|x l IH]; simpl; [reflexivity|].
  rewrite forallb_app, IH. simpl. rewrite andb_true_r. apply andb_comm.
Qed.

Lemma rev_nil_iff (A : Type) (l : list A) : rev l = [] <-> l = [].
Proof.
  split; [|intros ->; reflexivity].
  intros E. apply (f_equal (@rev A)) in E. now rewrite rev_involutive in E.
Qed.

(** A message strips to nothing exactly when it is made of whitespace only. *)
Lemma strip_nil_iff (s : pystr) :
  strip s = [] <-> forallb isspace s = true.
Proof.
  unfold strip, rstrip.
  rewrite rev_nil_iff, lstrip_nil_iff, forallb_rev.
  rewrite <- (lstrip_nil_iff s).
  split; [|intros ->; reflexivity].
  intros H. destruct (lstrip_head s) as [E | (c & t & E & Hc)]; [assumption|].
  rewrite E in H. simpl in H. now rewrite Hc in H.
Qed.

Lemma lstrip_app_solid (a : pystr) (c : codepoint) (x : pystr) :
  isspace c = false -> lstrip (a ++ c :: x) = lstrip a ++ c :: x.
Proof.
  intros Hc. induction a as [|d a IH]; simpl.
  - now rewrite Hc.
  - destruct (isspace d); [assumption | reflexivity].
Qed.

Lemma contains_lstrip (p s : pystr) :
  isspace (hd 0x20%N p) = false ->
  contains p s = true -> contains p (lstrip s) = true.
Proof.
  intros Hp. rewrite !contains_spec. intros (a & b & ->).
  destruct p as [|c p]; [discriminate Hp|]. simpl in Hp.
  exists (lstrip a), b. simpl. now apply lstrip_app_solid.
Qed.

Lemma contains_rev (p s : pystr) :
  contains p s = true -> contains (rev p) (rev s) = true.
Proof.
  rewrite !contains_spec. intros (a & b & ->).
  exists (rev b), (rev a). now rewrite !rev_app_distr, app_assoc.
Qed.

(** Stripping keeps every occurrence of a solid string. *)
Lemma contains_strip (p s : pystr) :
  solid p = true -> contains p s = true -> contains p (strip s) = true.
Proof.
  unfold solid. rewrite andb_true_iff, !negb_true_iff. intros [Hh Hl] H.
  unfold strip, rstrip.
  rewrite <- (rev_involutive p). apply contains_rev.
  apply contains_lstrip; [assumption|].
  apply contains_rev. now apply contains_lstrip.
Qed.

Lemma join_nonempty (sep p : pystr) (rest : list pystr) :
  p <> [] -> join sep (p :: rest) <> [].
Proof.
  intros Hp. destruct rest; simpl; [assumption|].
  destruct p; [congruence | discriminate].
Qed.

Lemma lstrip_length (s : pystr) : (List.length (lstrip s) <= List.length s)%nat.
Proof.
  induction s as [|c s IH]; simpl; [lia|].
  destruct (isspace c); simpl; lia.
Qed.

Lemma strip_length (s : pystr) : (List.length (strip s) <= List.length s)%nat.
Proof.
  unfold strip, rstrip. rewrite length_rev.
  etransitivity; [apply lstrip_length|]. rewrite length_rev.
  apply lstrip_length.
Qed.

(* ================================================================== *)
(** ** Running the composer *)
(* ================================================================== *)

(** What the runtime's [str.lower] is relied on for: the empty string stays
    empty, and a run of ASCII code points other than A-Z that occurs in a
    string still occurs in its lowering. *)
Hypothesis lower_nil : lower [] = [].
Hypothesis lower_keeps :
  forall w s : pystr,
    forallb ascii_nonupper w = true ->
    contains w s = true -> contains w (lower s) = true.

Lemma is_greeting_iff (text : pystr) :
  is_greeting text = true <-> In (lower (strip text)) greetings.
Proof. unfold is_greeting. apply in_list_iff. Qed.

Lemma answer_parts_run (nq : pystr) (s s1 s2 : state)
      (a : option pystr) (raw : option pystr * option pystr * option pystr) :
  api_answer nq s = (a, s1) ->
  ask_app nq s1 = (raw, s2) ->
  answer_parts nq s =
    (response_parts (keep_api a nq) (keep_app raw nq (significant (split nq))),
     s2).
Proof.
  intros Ha Hr. unfold answer_parts, bind, ret.
  rewrite Ha, Hr. reflexivity.
Qed.

Lemma unified_chatbot_run (q : pystr) (s s1 s2 : state)
      (a : option pystr) (raw : option pystr * option pystr * option pystr) :
  is_greeting q = false ->
  api_answer (preprocess_text q) s = (a, s1) ->
  ask_app (preprocess_text q) s1 = (raw, s2) ->
  unified_chatbot q s =
    (render (response_parts
               (keep_api a (preprocess_text q))
               (keep_app raw (preprocess_text q)
                         (significant (split (preprocess_text q))))),
     s2).
Proof.
  intros Hg Ha Hr. unfold unified_chatbot, bind, ret.
  rewrite Hg, (answer_parts_run _ _ Ha Hr). reflexivity.
Qed.

(** The engine is asked at most once, and only through [ask_api]. *)
Lemma api_answer_calls (question : pystr) (s : state) :
  calls (snd (api_answer question s)) = calls s
  \/ calls (snd (api_answer question s)) = calls s ++ [AskApi question].
Proof.
  unfold api_answer. destruct (is_greeting question); [now left|].
  right. unfold bind, ask_api, ret.
  destruct (answer_semantic_question question (world s)) as [[r|] w];
    [|reflexivity].
  destruct (existsb _ api_failure_phrases); [reflexivity|].
  destruct (is_empty _); [reflexivity|].
  destruct (_ =? 0)%nat; reflexivity.
Qed.

(** Below the greeting test the knowledge base is always asked, last. *)
Lemma unified_chatbot_calls (q : pystr) (s : state) :
  is_greeting q = false ->
  exists before,
    calls (snd (unified_chatbot q s)) = before ++ [AskApp (preprocess_text q)].
Proof.
  intros Hg.
  destruct (api_answer (preprocess_text q) s) as [a s1] eqn:Ha.
  destruct (ask_app (preprocess_text q) s1) as [raw s2] eqn:Hr.
  rewrite (unified_chatbot_run _ _ Hg Ha Hr). simpl.
  unfold ask_app in Hr.
  destruct (hostel_chatbot (preprocess_text q) (world s1)) as [r w].
  inversion Hr; subst. simpl. now exists (calls s1).
Qed.

(* ------------------------------------------------------------------ *)
(** *** The filters, case by case *)

Lemma is_meaningful_answer_none (uq : option pystr) :
  is_meaningful_answer None uq = false.
Proof. reflexivity. Qed.

Lemma is_meaningful_answer_blank (a : pystr) (uq : option pystr) :
  strip a = [] -> is_meaningful_answer (Some a) uq = false.
Proof. intros E. unfold is_meaningful_answer. now rewrite E. Qed.

Lemma is_meaningful_answer_short (a : pystr) (uq : option pystr) :
  (List.length (strip a) <= 3)%nat -> is_meaningful_answer (Some a) uq = false.
Proof.
  intros H. unfold is_meaningful_answer.
  destruct (is_empty (strip a)); [reflexivity|].
  apply Nat.leb_le in H. now rewrite H.
Qed.

Lemma is_meaningful_answer_long (a : pystr) (uq : option pystr) :
  is_meaningful_answer (Some a) uq = true -> (3 < List.length (strip a))%nat.
Proof.
  intros H. destruct (Nat.le_gt_cases (List.length (strip a)) 3) as [L|L];
    [|exact L].
  rewrite (is_meaningful_answer_short a uq L) in H. discriminate.
Qed.

Lemma existsb_none (A : Type) (f : A -> bool) (l : list A) :
  (forall x, In x l -> f x = false) -> existsb f l = false.
Proof.
  intros H. induction l as [|x l IH]; simpl; [reflexivity|].
  rewrite (H x (or_introl eq_refl)), IH; [reflexivity|].
  intros y Hy. apply H. now right.
Qed.

Lemma in_significant (w : pystr) (words : list pystr) :
  In w (significant words) <-> In w words /\ (2 < List.length w)%nat.
Proof. unfold significant. now rewrite filter_In, Nat.ltb_lt. Qed.

Lemma is_meaningful_answer_no_overlap (a q : pystr) :
  q <> [] ->
  (forall w, In w (split (lower q)) -> (2 < List.length w)%nat ->
             contains w (lower (strip a)) = false) ->
  is_meaningful_answer (Some a) (Some q) = false.
Proof.
  intros Hq Hno. unfold is_meaningful_answer.
  destruct (is_empty (strip a)); [reflexivity|].
  destruct (_ <=? 3)%nat; [reflexivity|].
  destruct q as [|c q]; [congruence|]. cbn [truthy str_or_empty].
  destruct (is_empty _); [reflexivity|].
  rewrite existsb_none; [reflexivity|].
  intros w Hw. apply in_significant in Hw. now apply Hno.
Qed.

Lemma is_valid_app_answer_blank (a : pystr) :
  strip a = [] -> is_valid_app_answer (Some a) = false.
Proof.
  intros E. unfold is_valid_app_answer. now rewrite E, lower_nil.
Qed.

Lemma is_valid_app_answer_phrase (a : pystr) :
  existsb (fun phrase => contains phrase (lower (strip a))) invalid_phrases
    = true ->
  is_valid_app_answer (Some a) = false.
Proof.
  intros E. unfold is_valid_app_answer.
  destruct (is_empty _); [reflexivity|]. now rewrite E.
Qed.

Lemma keep_api_rejected (a : option pystr) (nq : pystr) :
  is_meaningful_answer a (Some nq) = false -> keep_api a nq = None.
Proof. intros E. unfold keep_api. now rewrite E. Qed.

Lemma keep_api_accepted (a : option pystr) (nq : pystr) :
  is_meaningful_answer a (Some nq) = true -> keep_api a nq = a.
Proof. intros E. unfold keep_api. now rewrite E. Qed.

Lemma keep_app_rejected
      (raw : option pystr * option pystr * option pystr)
      (nq : pystr) (words : list pystr) :
  app_rejected (str_or_empty (fst (fst raw))) nq words = true ->
  keep_app raw nq words = ([], [], []).
Proof.
  destruct raw as [[a l] i]. simpl. intros E. unfold keep_app. now rewrite E.
Qed.

Lemma keep_app_accepted
      (raw : option pystr * option pystr * option pystr)
      (nq : pystr) (words : list pystr) :
  app_rejected (str_or_empty (fst (fst raw))) nq words = false ->
  keep_app raw nq words =
    (str_or_empty (fst (fst raw)), str_or_empty (snd (fst raw)),
     str_or_empty (snd raw))
  /\ str_or_empty (fst (fst raw)) <> [].
Proof.
  destruct raw as [[a l] i]. simpl. intros E. unfold keep_app. rewrite E.
  split; [reflexivity|].
  unfold app_rejected in E. rewrite !orb_false_iff, !negb_false_iff in E.
  destruct E as [[_ Hm] _]. intros N. rewrite N in Hm. discriminate.
Qed.

(** An emptied or rejected answer takes its link and image with it. *)
Lemma keep_app_shape
      (raw : option pystr * option pystr * option pystr)
      (nq : pystr) (words : list pystr) (ans link img : pystr) :
  keep_app raw nq words = (ans, link, img) ->
  ans = [] -> link = [] /\ img = [].
Proof.
  intros E N.
  destruct (app_rejected (str_or_empty (fst (fst raw))) nq words) eqn:R.
  - rewrite (keep_app_rejected _ _ _ R) in E. inversion E; auto.
  - destruct (keep_app_accepted _ _ _ R) as [E' Hne].
    rewrite E' in E. inversion E; subst. congruence.
Qed.

(* ------------------------------------------------------------------ *)
(** *** The parts and their rendering *)

Lemma present_api (api_ans : option pystr) :
  (if truthy api_ans then [str_or_empty api_ans] else [])
  = present (str_or_empty api_ans).
Proof. destruct api_ans as [[|c a]|]; reflexivity. Qed.

Lemma response_parts_flat (api_ans : option pystr) (ans link img : pystr) :
  (ans = [] -> link = [] /\ img = []) ->
  response_parts api_ans (ans, link, img)
  = paragraphs_in_order api_ans ans link img.
Proof.
  intros H. unfold response_parts, paragraphs_in_order. rewrite present_api.
  destruct ans as [|c ans]; [|reflexivity].
  destruct (H eq_refl) as [-> ->]. reflexivity.
Qed.

Lemma response_parts_nonempty
      (api_ans : option pystr) (app : pystr * pystr * pystr) :
  Forall (fun p => p <> []) (response_parts api_ans app).
Proof.
  destruct app as [[ans link] img]. unfold response_parts.
  apply Forall_app. split.
  - destruct api_ans as [[|c a]|]; simpl; repeat constructor. discriminate.
  - destruct ans as [|c ans]; simpl; [constructor|].
    constructor; [discriminate|]. apply Forall_app. split.
    + destruct link; simpl; repeat constructor. discriminate.
    + destruct img; simpl; repeat constructor. discriminate.
Qed.

Lemma render_cases (parts : list pystr) :
  (parts = [] /\ render parts = fallback_response)
  \/ (parts <> [] /\ render parts = join paragraph_break parts).
Proof.
  destruct parts; [left | right]; split; try reflexivity; discriminate.
Qed.

Lemma render_nonempty (parts : list pystr) :
  Forall (fun p => p <> []) parts -> render parts <> [].
Proof.
  intros H. destruct parts as [|p rest]; [discriminate|].
  inversion H; subst. now apply join_nonempty.
Qed.

Lemma api_answer_no_words (question : pystr) (s : state) :
  significant (split (lower question)) = [] ->
  fst (api_answer question s) = None.
Proof.
  intros Hw. unfold api_answer. destruct (is_greeting question); [reflexivity|].
  unfold bind, ask_api, ret.
  destruct (answer_semantic_question question (world s)) as [[r|] w];
    [|reflexivity].
  destruct (existsb _ api_failure_phrases); [reflexivity|].
  now rewrite Hw.
Qed.

Lemma sorry_survives (r : pystr) :
  contains (py "sorry") r = true ->
  contains (py "sorry") (lower (strip r)) = true.
Proof.
  intros H. apply lower_keeps; [reflexivity|].
  apply contains_strip; [reflexivity | exact H].
Qed.

(* ================================================================== *)
(** ** The claims *)
(* ================================================================== *)

(** C1. When the stripped, lowercased input is one of the seven fixed
    greetings, [unified_chatbot] returns the fixed greeting response and
    leaves the state as it found it: the world of the answerers is untouched
    and no call to either of them is logged. *)
Theorem greeting_short_circuit (q : pystr) (s : state) :
  In (lower (strip q)) greetings ->
  unified_chatbot q s = (greeting_response, s)
  /\ calls (snd (unified_chatbot q s)) = calls s.
Proof.
  intros Hin. apply is_greeting_iff in Hin.
  unfold unified_chatbot. rewrite Hin. split; reflexivity.
Qed.

(** C2, as amended. [is_meaningful_answer] rejects [None], an answer that
    strips to nothing, an answer of stripped length at most 3 and, for a
    non-empty query, an answer in which no query token longer than 2 occurs.
    [is_valid_app_answer] rejects [None], an answer that strips to nothing
    and an answer containing one of its four phrases, and tests nothing
    else.  [unified_chatbot] drops the remote answer and the local answer
    alike when [is_meaningful_answer] rejects them for the normalized query,
    and drops the local answer also when [is_valid_app_answer] rejects it. *)
Theorem filter_shapes :
  (forall uq, is_meaningful_answer None uq = false)
  /\ (forall a uq, strip a = [] -> is_meaningful_answer (Some a) uq = false)
  /\ (forall a uq, (List.length (strip a) <= 3)%nat ->
                   is_meaningful_answer (Some a) uq = false)
  /\ (forall a q,
        q <> [] ->
        (forall w, In w (split (lower q)) -> (2 < List.length w)%nat ->
                   contains w (lower (strip a)) = false) ->
        is_meaningful_answer (Some a) (Some q) = false)
  /\ is_valid_app_answer None = false
  /\ (forall a, strip a = [] -> is_valid_app_answer (Some a) = false)
  /\ (forall a,
        lower (strip a) <> [] ->
        is_valid_app_answer (Some a)
        = negb (existsb (fun phrase => contains phrase (lower (strip a)))
                        invalid_phrases))
  /\ (forall q s s1 s2 a raw,
        is_greeting q = false ->
        api_answer (preprocess_text q) s = (a, s1) ->
        ask_app (preprocess_text q) s1 = (raw, s2) ->
        is_meaningful_answer a (Some (preprocess_text q)) = false ->
        unified_chatbot q s =
          (render (response_parts
                     None
                     (keep_app raw (preprocess_text q)
                               (significant (split (preprocess_text q))))),
           s2))
  /\ (forall q s s1 s2 a ans link img,
        is_greeting q = false ->
        api_answer (preprocess_text q) s = (a, s1) ->
        ask_app (preprocess_text q) s1 = ((ans, link, img), s2) ->
        is_meaningful_answer (Some (str_or_empty ans))
                             (Some (preprocess_text q)) = false
        \/ is_valid_app_answer (Some (str_or_empty ans)) = false ->
        unified_chatbot q s =
          (render (response_parts (keep_api a (preprocess_text q))
                                  ([], [], [])),
           s2)).
Proof.
  split; [exact is_meaningful_answer_none|].
  split; [exact is_meaningful_answer_blank|].
  split; [exact is_meaningful_answer_short|].
  split; [exact is_meaningful_answer_no_overlap|].
  split; [reflexivity|].
  split; [exact is_valid_app_answer_blank|].
  split.
  - intros a Hne. unfold is_valid_app_answer.
    destruct (lower (strip a)); [congruence | reflexivity].
  - split.
    + intros q s s1 s2 a raw Hg Ha Hr Hm.
      rewrite (unified_chatbot_run _ _ Hg Ha Hr).
      now rewrite (keep_api_rejected _ _ Hm).
    + intros q s s1 s2 a ans link img Hg Ha Hr H.
      rewrite (unified_chatbot_run _ _ Hg Ha Hr).
      rewrite keep_app_rejected; [reflexivity|]. simpl. unfold app_rejected.
      destruct H as [H | H]; rewrite H; cbn [negb];
        [rewrite orb_true_r|]; reflexivity.
Qed.

(** C3, as amended. An answer that contains "sorry" is rejected by the
    failure-phrase gate of [api_answer] whatever the question, and by
    [is_valid_app_answer], so [unified_chatbot] empties a local answer that
    contains it.  Nothing is said of [is_meaningful_answer], which has no
    phrase test. *)
Theorem sorry_rejected_by_the_gates (r : pystr) :
  contains (py "sorry") r = true ->
  (forall question s w,
      answer_semantic_question question (world s) = (Some r, w) ->
      fst (api_answer question s) = None)
  /\ is_valid_app_answer (Some r) = false
  /\ (forall link img nq words,
        keep_app (Some r, link, img) nq words = ([], [], [])).
Proof.
  intros H. pose proof (sorry_survives r H) as Hs.
  assert (Hv : is_valid_app_answer (Some r) = false).
  { apply is_valid_app_answer_phrase. unfold invalid_phrases.
    cbn [existsb]. now rewrite Hs. }
  split; [|split; [exact Hv|]].
  - intros question s w Hr. unfold api_answer.
    destruct (is_greeting question); [reflexivity|].
    unfold bind, ask_api, ret. rewrite Hr.
    unfold api_failure_phrases. cbn [existsb]. now rewrite Hs.
  - intros link img nq words.
    apply (keep_app_rejected (Some r, link, img)). simpl.
    unfold app_rejected. now rewrite Hv.
Qed.

(** C4. Below the greeting test, when the remote answer is not accepted
    ([api_answer] gives nothing that is meaningful for the normalized query)
    and the local answer is rejected, [unified_chatbot] returns exactly the
    fallback string. *)
Theorem fallback_when_nothing_accepted
        (q : pystr) (s s1 s2 : state) (a : option pystr)
        (raw : option pystr * option pystr * option pystr) :
  is_greeting q = false ->
  api_answer (preprocess_text q) s = (a, s1) ->
  ask_app (preprocess_text q) s1 = (raw, s2) ->
  is_meaningful_answer a (Some (preprocess_text q)) = false ->
  app_rejected (str_or_empty (fst (fst raw))) (preprocess_text q)
               (significant (split (preprocess_text q))) = true ->
  unified_chatbot q s = (fallback_response, s2).
Proof.
  intros Hg Ha Hr Hapi Happ.
  rewrite (unified_chatbot_run _ _ Hg Ha Hr).
  now rewrite (keep_api_rejected _ _ Hapi), (keep_app_rejected _ _ _ Happ).
Qed.

(** C5. For a query that is not a greeting and whose normalized form (which
    is lowercase: lowering leaves it as it is) has no token longer than 2,
    [api_answer] returns [None] whatever the engine says, the three strings
    of the knowledge base are emptied whatever they were, and
    [unified_chatbot] returns the fallback string. *)
Theorem no_significant_token_gives_fallback (q : pystr) (s : state) :
  is_greeting q = false ->
  lower (preprocess_text q) = preprocess_text q ->
  significant (split (preprocess_text q)) = [] ->
  fst (api_answer (preprocess_text q) s) = None
  /\ (forall raw,
        keep_app raw (preprocess_text q)
                 (significant (split (preprocess_text q))) = ([], [], []))
  /\ fst (unified_chatbot q s) = fallback_response.
Proof.
  intros Hg Hl Hw.
  assert (Hapi : fst (api_answer (preprocess_text q) s) = None).
  { apply api_answer_no_words. now rewrite Hl. }
  assert (Happ : forall raw,
             keep_app raw (preprocess_text q)
                      (significant (split (preprocess_text q)))
             = ([], [], [])).
  { intros raw. apply keep_app_rejected. unfold app_rejected.
    rewrite Hw. simpl. apply orb_true_r. }
  split; [exact Hapi|]. split; [exact Happ|].
  destruct (api_answer (preprocess_text q) s) as [a s1] eqn:Ha.
  destruct (ask_app (preprocess_text q) s1) as [raw s2] eqn:Hr.
  rewrite (unified_chatbot_run _ _ Hg Ha Hr). simpl in Hapi. subst a.
  rewrite Happ. reflexivity.
Qed.

(** C6. An answer whose stripped length is at most 3 is rejected by
    [is_meaningful_answer], with or without a query; and [unified_chatbot]
    never uses it: coming from [api_answer] it is replaced by [None], coming
    from the knowledge base it is emptied together with its link and image,
    so the output is composed from the other source alone. *)
Theorem short_answer_never_used (x : pystr) :
  (List.length (strip x) <= 3)%nat ->
  (forall uq, is_meaningful_answer (Some x) uq = false)
  /\ (forall q s s1 s2 raw,
        is_greeting q = false ->
        api_answer (preprocess_text q) s = (Some x, s1) ->
        ask_app (preprocess_text q) s1 = (raw, s2) ->
        unified_chatbot q s =
          (render (response_parts
                     None
                     (keep_app raw (preprocess_text q)
                               (significant (split (preprocess_text q))))),
           s2))
  /\ (forall q s s1 s2 a link img,
        is_greeting q = false ->
        api_answer (preprocess_text q) s = (a, s1) ->
        ask_app (preprocess_text q) s1 = ((Some x, link, img), s2) ->
        unified_chatbot q s =
          (render (response_parts (keep_api a (preprocess_text q))
                                  ([], [], [])),
           s2)).
Proof.
  intros Hlen.
  split; [intros uq; now apply is_meaningful_answer_short|]. split.
  - intros q s s1 s2 raw Hg Ha Hr.
    rewrite (unified_chatbot_run _ _ Hg Ha Hr).
    rewrite keep_api_rejected; [reflexivity|].
    now apply is_meaningful_answer_short.
  - intros q s s1 s2 a link img Hg Ha Hr.
    rewrite (unified_chatbot_run _ _ Hg Ha Hr).
    rewrite keep_app_rejected; [reflexivity|]. simpl. unfold app_rejected.
    rewrite (is_meaningful_answer_short x _ Hlen). simpl.
    now rewrite orb_true_r.
Qed.

(** C7. On a message made of whitespace only (or empty), [chat] returns
    the history as it is, with an empty string for the input box, and runs
    nothing.  On any other message it returns the history followed by the
    user turn holding the message and then the assistant turn holding what
    [unified_chatbot] returned for it, again with an empty string for the
    input box.  An absent history counts as the empty one ([history or []]). *)
Theorem chat_appends_two_turns
        (user_message : pystr) (history : option (list turn)) (s : state) :
  (forallb isspace user_message = true ->
   chat user_message history s = ((history_or_empty history, []), s))
  /\ (forallb isspace user_message = false ->
      chat user_message history s =
        ((history_or_empty history
            ++ [ {| role := py "user"; content := user_message |};
                 {| role := py "assistant";
                    content := fst (unified_chatbot user_message s) |} ],
          []),
         snd (unified_chatbot user_message s))).
Proof.
  unfold chat. split; intros Hb.
  - apply strip_nil_iff in Hb. now rewrite Hb.
  - destruct (strip user_message) as [|c t] eqn:E.
    + apply strip_nil_iff in E. congruence.
    + cbn [is_empty]. unfold bind, ret.
      now destruct (unified_chatbot user_message s).
Qed.

(** C8. Below the greeting test, when the remote answer or the local answer
    is accepted, the output is the join, with a blank line between
    paragraphs, of: the remote answer if it is kept, the local answer if it
    is kept, the link behind its prefix if it is kept, the image behind its
    prefix if it is kept; in this order. *)
Theorem composed_in_fixed_order
        (q : pystr) (s s1 s2 : state) (a : option pystr)
        (raw : option pystr * option pystr * option pystr)
        (app_ans app_link app_img : pystr) :
  is_greeting q = false ->
  api_answer (preprocess_text q) s = (a, s1) ->
  ask_app (preprocess_text q) s1 = (raw, s2) ->
  keep_app raw (preprocess_text q) (significant (split (preprocess_text q)))
  = (app_ans, app_link, app_img) ->
  keep_api a (preprocess_text q) <> None \/ app_ans <> [] ->
  unified_chatbot q s =
    (join paragraph_break
          (paragraphs_in_order (keep_api a (preprocess_text q))
                               app_ans app_link app_img),
     s2).
Proof.
  intros Hg Ha Hr Hk Hsome.
  rewrite (unified_chatbot_run _ _ Hg Ha Hr), Hk.
  rewrite response_parts_flat by (now apply (keep_app_shape _ _ _ Hk)).
  f_equal. unfold render.
  destruct (paragraphs_in_order _ _ _ _) eqn:E; [exfalso | reflexivity].
  unfold paragraphs_in_order in E.
  apply app_eq_nil in E. destruct E as [E1 E2].
  apply app_eq_nil in E2. destruct E2 as [E2 _].
  destruct Hsome as [Hapi | Happ].
  - unfold keep_api in Hapi, E1.
    destruct (is_meaningful_answer a _) eqn:Hm; simpl in Hapi;
      [|congruence].
    simpl in E1. destruct a as [x|]; [|discriminate Hm].
    pose proof (is_meaningful_answer_long _ _ Hm) as L.
    destruct x as [|c x]; [|discriminate E1].
    pose proof (strip_length (@nil N)). simpl in *. lia.
  - destruct app_ans; [congruence | discriminate E2].
Qed.

(** C9. The link and the image of the knowledge base reach the output only
    with an accepted local answer.  When the local answer is rejected the
    parts are the remote answer alone (if kept); when it is accepted it is
    not empty, and the parts are the remote answer (if kept), then the local
    answer, then the link and the image paragraphs. *)
Theorem link_and_image_follow_app_answer
        (q : pystr) (s s1 s2 : state) (a ans link img : option pystr) :
  is_greeting q = false ->
  api_answer (preprocess_text q) s = (a, s1) ->
  ask_app (preprocess_text q) s1 = ((ans, link, img), s2) ->
  (app_rejected (str_or_empty ans) (preprocess_text q)
                (significant (split (preprocess_text q))) = true ->
   answer_parts (preprocess_text q) s =
     (present (str_or_empty (keep_api a (preprocess_text q))), s2)
   /\ unified_chatbot q s =
        (render (present (str_or_empty (keep_api a (preprocess_text q)))),
         s2))
  /\ (app_rejected (str_or_empty ans) (preprocess_text q)
                   (significant (split (preprocess_text q))) = false ->
      str_or_empty ans <> []
      /\ answer_parts (preprocess_text q) s =
           (present (str_or_empty (keep_api a (preprocess_text q)))
            ++ str_or_empty ans
               :: prefixed link_prefix (str_or_empty link)
               ++ prefixed image_prefix (str_or_empty img),
            s2)).
Proof.
  intros Hg Ha Hr. split; intros R.
  - rewrite (unified_chatbot_run _ _ Hg Ha Hr), (answer_parts_run _ _ Ha Hr).
    rewrite (keep_app_rejected (ans, link, img) _ _ R).
    unfold response_parts. rewrite present_api. simpl.
    rewrite app_nil_r. split; reflexivity.
  - destruct (keep_app_accepted (ans, link, img) _ _ R) as [E Hne].
    cbn [fst snd] in E, Hne. split; [exact Hne|].
    rewrite (answer_parts_run _ _ Ha Hr), E.
    unfold response_parts. rewrite present_api.
    destruct (str_or_empty ans); [congruence | reflexivity].
Qed.

(** C10. [unified_chatbot] never returns the empty string: its output is
    the greeting response, or the fallback string, or the join of a
    non-empty list of parts none of which is empty.  A kept answer, remote
    or local, has stripped length above 3. *)
Theorem unified_chatbot_nonempty (q : pystr) (s : state) :
  fst (unified_chatbot q s) <> []
  /\ (fst (unified_chatbot q s) = greeting_response
      \/ fst (unified_chatbot q s) = fallback_response
      \/ exists parts,
           parts <> [] /\ Forall (fun p => p <> []) parts
           /\ fst (unified_chatbot q s) = join paragraph_break parts)
  /\ (forall a nq x,
        keep_api a nq = Some x -> (3 < List.length (strip x))%nat)
  /\ (forall raw nq words ans link img,
        keep_app raw nq words = (ans, link, img) -> ans <> [] ->
        (3 < List.length (strip ans))%nat).
Proof.
  assert (Hout :
    fst (unified_chatbot q s) = greeting_response
    \/ fst (unified_chatbot q s) = fallback_response
    \/ exists parts,
         parts <> [] /\ Forall (fun p => p <> []) parts
         /\ fst (unified_chatbot q s) = join paragraph_break parts).
  { destruct (is_greeting q) eqn:Hg.
    - left. unfold unified_chatbot. now rewrite Hg.
    - right.
      destruct (api_answer (preprocess_text q) s) as [a s1] eqn:Ha.
      destruct (ask_app (preprocess_text q) s1) as [raw s2] eqn:Hr.
      rewrite (unified_chatbot_run _ _ Hg Ha Hr). cbn [fst].
      destruct (render_cases
                  (response_parts
                     (keep_api a (preprocess_text q))
                     (keep_app raw (preprocess_text q)
                               (significant (split (preprocess_text q))))))
        as [[_ E] | [Hne E]]; [now left | right].
      eexists. split; [exact Hne|]. split; [|exact E].
      apply response_parts_nonempty. }
  split; [|split; [exact Hout|split]].
  - destruct Hout as [E | [E | (parts & Hne & Hall & E)]]; rewrite E.
    + discriminate.
    + discriminate.
    + destruct parts as [|p rest]; [congruence|].
      inversion Hall; subst. now apply join_nonempty.
  - intros a nq x E. unfold keep_api in E.
    destruct (is_meaningful_answer a (Some nq)) eqn:Hm; simpl in E;
      [|discriminate].
    subst a. exact (is_meaningful_answer_long _ _ Hm).
  - intros [[a l] i] nq words ans link img E Hne.
    unfold keep_app in E.
    destruct (app_rejected (str_or_empty a) nq words) eqn:R;
      inversion E; subst; [congruence|].
    unfold app_rejected in R. rewrite !orb_false_iff, !negb_false_iff in R.
    destruct R as [[_ Hm] _]. exact (is_meaningful_answer_long _ _ Hm).
Qed.

(* ================================================================== *)
(** ** Further properties of the filters and of [api_answer] *)
(* ================================================================== *)

Lemma lstrip_app_space (a x : pystr) :
  forallb isspace a = true -> lstrip (a ++ x) = lstrip x.
Proof.
  induction a as [|c a IH]; simpl; [reflexivity|].
  rewrite andb_true_iff. intros [Hc Ha]. rewrite Hc. now apply IH.
Qed.

Lemma lstrip_app_keep (t b : pystr) :
  lstrip t <> [] -> lstrip (t ++ b) = lstrip t ++ b.
Proof.
  induction t as [|c t IH]; simpl; [congruence|].
  destruct (isspace c); [assumption | reflexivity].
Qed.

(** Whitespace around a string does not change what it strips to. *)
Lemma strip_pad (pre t post : pystr) :
  forallb isspace pre = true -> forallb isspace post = true ->
  strip (pre ++ t ++ post) = strip t.
Proof.
  intros Hpre Hpost. unfold strip. rewrite (lstrip_app_space _ _ Hpre).
  destruct (lstrip t) as [|c t'] eqn:E.
  - apply lstrip_nil_iff in E.
    assert (Hall : forallb isspace (t ++ post) = true)
      by (rewrite forallb_app, E, Hpost; reflexivity).
    apply lstrip_nil_iff in Hall. now rewrite Hall.
  - rewrite lstrip_app_keep by (rewrite E; discriminate). rewrite E.
    unfold rstrip. rewrite rev_app_distr.
    rewrite lstrip_app_space by (now rewrite forallb_rev). reflexivity.
Qed.

Lemma contains_trans (q p s : pystr) :
  contains q p = true -> contains p s = true -> contains q s = true.
Proof.
  rewrite !contains_spec. intros (a & b & ->) (c & d & ->).
  exists (c ++ a), (b ++ d). now rewrite <- !app_assoc.
Qed.

Lemma contains_nil_r (w : pystr) : w <> [] -> contains w [] = false.
Proof. destruct w; [congruence | reflexivity]. Qed.

Lemma filter_length_pos (A : Type) (f : A -> bool) (l : list A) :
  List.length (filter f l) <> 0%nat -> exists x, In x l /\ f x = true.
Proof.
  intros H. destruct (filter f l) as [|x r] eqn:E; [now elim H|].
  exists x. apply filter_In. rewrite E. now left.
Qed.

Lemma existsb_filter_length (A : Type) (f : A -> bool) (l : list A) :
  existsb f l = negb (List.length (filter f l) =? 0)%nat.
Proof.
  induction l as [|x l IH]; simpl; [reflexivity|].
  destruct (f x); simpl; [reflexivity | exact IH].
Qed.

Lemma api_answer_inv (question : pystr) (s s1 : state) (r : pystr) :
  api_answer question s = (Some r, s1) ->
  is_greeting question = false
  /\ answer_semantic_question question (world s) = (Some r, world s1)
  /\ calls s1 = calls s ++ [AskApi question]
  /\ (forall x, In x api_failure_phrases ->
                contains x (lower (strip r)) = false)
  /\ exists w,
       In w (split (lower question)) /\ (2 < List.length w)%nat
       /\ contains w (lower (strip r)) = true.
Proof.
  unfold api_answer. destruct (is_greeting question); [discriminate|].
  unfold bind, ask_api, ret.
  destruct (answer_semantic_question question (world s)) as [[r0|] w] eqn:E;
    [|discriminate].
  destruct (existsb _ api_failure_phrases) eqn:Hf; [discriminate|].
  destruct (is_empty _); [discriminate|].
  destruct (_ =? 0)%nat eqn:Ho; [discriminate|].
  intros H. inversion H; subst. simpl.
  split; [reflexivity|]. split; [reflexivity|]. split; [reflexivity|]. split.
  - intros x Hx. destruct (contains x (lower (strip r))) eqn:C; [|reflexivity].
    assert (existsb (fun x => contains x (lower (strip r)))
                    api_failure_phrases = true)
      by (apply existsb_exists; now exists x).
    congruence.
  - apply Nat.eqb_neq in Ho. apply filter_length_pos in Ho.
    destruct Ho as (x & Hin & Hc). apply in_significant in Hin.
    destruct Hin as [Hin Hlen]. exists x. split; [exact Hin|].
    split; [exact Hlen | exact Hc].
Qed.

(** X1. An answer that [api_answer] returns is the engine's own answer to
    this very question, asked once; the question is not a greeting; the
    stripped, lowercased answer holds none of the five failure phrases and
    holds at least one token of the lowercased question that is longer than
    two code points. *)
Theorem api_answer_sound (question : pystr) (s s1 : state) (r : pystr) :
  api_answer question s = (Some r, s1) ->
  is_greeting question = false
  /\ answer_semantic_question question (world s) = (Some r, world s1)
  /\ calls s1 = calls s ++ [AskApi question]
  /\ (forall x, In x api_failure_phrases ->
                contains x (lower (strip r)) = false)
  /\ exists w,
       In w (split (lower question)) /\ (2 < List.length w)%nat
       /\ contains w (lower (strip r)) = true.
Proof. exact (@api_answer_inv question s s1 r). Qed.

Lemma api_answer_effect (question : pystr) (s : state) :
  (is_greeting question = true -> api_answer question s = (None, s))
  /\ (is_greeting question = false ->
      snd (api_answer question s)
      = {| world := snd (answer_semantic_question question (world s));
           calls := calls s ++ [AskApi question] |}).
Proof.
  unfold api_answer. split; intros Hg; rewrite Hg; [reflexivity|].
  unfold bind, ask_api, ret.
  destruct (answer_semantic_question question (world s)) as [[r|] w];
    [|reflexivity].
  destruct (existsb _ api_failure_phrases); [reflexivity|].
  destruct (is_empty _); [reflexivity|].
  destruct (_ =? 0)%nat; reflexivity.
Qed.

(** X2. [api_answer] leaves the state alone on a greeting and returns
    [None], so the engine is not asked; on any other question it asks the
    engine exactly once, with the question as it is, on every one of its
    return paths. *)
Theorem api_answer_asks_once (question : pystr) (s : state) :
  (is_greeting question = true -> api_answer question s = (None, s))
  /\ (is_greeting question = false ->
      world (snd (api_answer question s))
      = snd (answer_semantic_question question (world s))
      /\ calls (snd (api_answer question s))
         = calls s ++ [AskApi question]).
Proof.
  destruct (api_answer_effect question s) as [H1 H2].
  split; [exact H1|]. intros Hg. rewrite (H2 Hg). split; reflexivity.
Qed.

(** X3. Below the greeting test [unified_chatbot] asks the engine first and
    the knowledge base second, each at most once and with the normalized
    query, never the raw one; the engine is skipped exactly when the
    normalized query is itself a greeting, the knowledge base never. *)
Theorem unified_chatbot_call_order (q : pystr) (s : state) :
  is_greeting q = false ->
  calls (snd (unified_chatbot q s))
  = calls s
    ++ (if is_greeting (preprocess_text q) then []
        else [AskApi (preprocess_text q)])
    ++ [AskApp (preprocess_text q)].
Proof.
  intros Hg.
  destruct (api_answer (preprocess_text q) s) as [a s1] eqn:Ha.
  destruct (ask_app (preprocess_text q) s1) as [raw s2] eqn:Hr.
  rewrite (unified_chatbot_run _ _ Hg Ha Hr). cbn [snd].
  unfold ask_app in Hr.
  destruct (hostel_chatbot (preprocess_text q) (world s1)) as [r w].
  inversion Hr; subst. cbn [calls]. rewrite app_assoc. f_equal.
  destruct (api_answer_effect (preprocess_text q) s) as [H1 H2].
  destruct (is_greeting (preprocess_text q)).
  - rewrite (H1 eq_refl) in Ha. inversion Ha; subst. now rewrite app_nil_r.
  - specialize (H2 eq_refl). rewrite Ha in H2. cbn [snd] in H2.
    now rewrite H2.
Qed.

Lemma phrase_plain (p : pystr) :
  In p (api_failure_phrases ++ invalid_phrases) ->
  solid p = true /\ forallb ascii_nonupper p = true.
Proof.
  unfold api_failure_phrases, invalid_phrases. cbn [app In]. intros H.
  repeat (destruct H as [H | H]; [subst p; split; reflexivity|]).
  destruct H.
Qed.

Lemma phrase_survives (p r : pystr) :
  In p (api_failure_phrases ++ invalid_phrases) ->
  contains p r = true -> contains p (lower (strip r)) = true.
Proof.
  intros Hp H. destruct (phrase_plain Hp) as [Hs Ha].
  apply lower_keeps; [exact Ha|]. now apply contains_strip.
Qed.

Lemma api_gate_blocks (question : pystr) (s : state) (r : pystr) (w : World) :
  existsb (fun x => contains x (lower (strip r))) api_failure_phrases = true ->
  answer_semantic_question question (world s) = (Some r, w) ->
  fst (api_answer question s) = None.
Proof.
  intros Hf Hr. unfold api_answer.
  destruct (is_greeting question); [reflexivity|].
  unfold bind, ask_api, ret. now rewrite Hr, Hf.
Qed.

(** X4. Each of the five phrases of [api_answer] and each of the four of
    [is_valid_app_answer] blocks: an answer in which the phrase occurs is
    turned into [None] by [api_answer], respectively rejected by
    [is_valid_app_answer], wherever the phrase stands in it. *)
Theorem every_failure_phrase_blocks (p r : pystr) :
  contains p r = true ->
  (In p api_failure_phrases ->
   forall question s w,
     answer_semantic_question question (world s) = (Some r, w) ->
     fst (api_answer question s) = None)
  /\ (In p invalid_phrases -> is_valid_app_answer (Some r) = false).
Proof.
  intros Hc. split; intros Hp.
  - intros question s w Hr. apply (@api_gate_blocks question s r w); [|exact Hr].
    apply existsb_exists. exists p. split; [exact Hp|].
    apply phrase_survives; [|exact Hc]. apply in_or_app. now left.
  - apply is_valid_app_answer_phrase. apply existsb_exists. exists p.
    split; [exact Hp|].
    apply phrase_survives; [|exact Hc]. apply in_or_app. now right.
Qed.

Lemma invalid_implies_failure (t : pystr) :
  existsb (fun p => contains p t) invalid_phrases = true ->
  existsb (fun p => contains p t) api_failure_phrases = true.
Proof.
  unfold invalid_phrases, api_failure_phrases. cbn [existsb].
  rewrite !orb_false_r, !orb_true_iff.
  intros [H | [H | [H | H]]]; auto.
  right. right. left.
  apply (contains_trans (py "not understand") (py "could not understand"));
    [reflexivity | exact H].
Qed.

Lemma filter_none (A : Type) (f : A -> bool) (l : list A) :
  (forall x, In x l -> f x = false) -> filter f l = [].
Proof.
  intros H. induction l as [|x l IH]; simpl; [reflexivity|].
  rewrite (H x (or_introl eq_refl)). apply IH.
  intros y Hy. apply H. now right.
Qed.

(** X5. [api_answer] is at least as strict as [is_valid_app_answer]: a text
    that [is_valid_app_answer] rejects is never returned by [api_answer]
    when the engine gives it. *)
Theorem api_answer_stricter_than_validity
        (question : pystr) (s : state) (r : pystr) (w : World) :
  is_valid_app_answer (Some r) = false ->
  answer_semantic_question question (world s) = (Some r, w) ->
  fst (api_answer question s) = None.
Proof.
  intros Hv Hr. unfold is_valid_app_answer in Hv.
  destruct (is_empty (lower (strip r))) eqn:E.
  - unfold api_answer. destruct (is_greeting question); [reflexivity|].
    unfold bind, ask_api, ret. rewrite Hr.
    destruct (existsb _ api_failure_phrases); [reflexivity|].
    destruct (is_empty (significant (split (lower question))));
      [reflexivity|].
    destruct (lower (strip r)); [|discriminate E].
    rewrite filter_none; [reflexivity|].
    intros x Hx. apply in_significant in Hx. apply contains_nil_r.
    destruct x; simpl in Hx; [lia | discriminate].
  - apply negb_false_iff in Hv.
    apply (@api_gate_blocks question s r w); [|exact Hr].
    now apply invalid_implies_failure.
Qed.

Lemma api_answer_then_meaningful
      (question : pystr) (s s1 : state) (r : pystr) :
  api_answer question s = (Some r, s1) ->
  is_meaningful_answer (Some r) (Some question)
  = negb (List.length (strip r) <=? 3)%nat.
Proof.
  intros H.
  destruct (api_answer_inv _ _ H) as (_ & _ & _ & _ & w & Hin & Hlen & Hc).
  unfold is_meaningful_answer.
  destruct (strip r) as [|c t] eqn:Es; [reflexivity|]. rewrite <- Es.
  replace (is_empty (strip r)) with false by (now rewrite Es).
  destruct (_ <=? 3)%nat; [reflexivity|].
  destruct question as [|c' q']; [reflexivity|].
  cbn [truthy str_or_empty negb].
  assert (Hs : In w (significant (split (lower (c' :: q')))))
    by (now apply in_significant).
  destruct (significant (split (lower (c' :: q')))) as [|w0 ws] eqn:Ew;
    [destruct Hs|]. cbn [is_empty].
  replace (existsb (fun word => contains word (lower (strip r))) (w0 :: ws))
    with true; [reflexivity|].
  symmetry. apply existsb_exists. exists w. rewrite Es. now split.
Qed.

(** X6. The second test that [unified_chatbot] runs on the remote answer
    adds the length bound and nothing else: for an answer that [api_answer]
    returned, [is_meaningful_answer] with the same question is true exactly
    when the stripped answer is longer than 3, so the remote answer is kept
    exactly then. *)
Theorem remote_answer_kept_iff_long
        (question : pystr) (s s1 : state) (r : pystr) :
  api_answer question s = (Some r, s1) ->
  is_meaningful_answer (Some r) (Some question)
  = negb (List.length (strip r) <=? 3)%nat
  /\ keep_api (Some r) question
     = if (List.length (strip r) <=? 3)%nat then None else Some r.
Proof.
  intros H. pose proof (api_answer_then_meaningful _ _ H) as E.
  split; [exact E|]. unfold keep_api. rewrite E.
  now destruct (_ <=? 3)%nat.
Qed.

(** X7. Passing a query to [is_meaningful_answer] can only reject more: an
    answer accepted with a query, whichever, is accepted without one. *)
Theorem query_only_restricts (a uq : option pystr) :
  is_meaningful_answer a uq = true -> is_meaningful_answer a None = true.
Proof.
  destruct a as [a|]; [|discriminate]. unfold is_meaningful_answer.
  destruct (is_empty (strip a)); [discriminate|].
  destruct (_ <=? 3)%nat; [discriminate | reflexivity].
Qed.

(** X8. Whitespace before and after a text changes the verdict of none of
    the three predicates: [is_greeting], [is_meaningful_answer] (on the
    answer) and [is_valid_app_answer] see the stripped text only. *)
Theorem predicates_ignore_padding (pre t post : pystr) (uq : option pystr) :
  forallb isspace pre = true -> forallb isspace post = true ->
  is_greeting (pre ++ t ++ post) = is_greeting t
  /\ is_meaningful_answer (Some (pre ++ t ++ post)) uq
     = is_meaningful_answer (Some t) uq
  /\ is_valid_app_answer (Some (pre ++ t ++ post))
     = is_valid_app_answer (Some t).
Proof.
  intros Hpre Hpost.
  unfold is_greeting, is_meaningful_answer, is_valid_app_answer.
  rewrite (@strip_pad pre t post Hpre Hpost). repeat split.
Qed.

(** X9. What an accepted answer guarantees: when [is_meaningful_answer]
    accepts an answer for a non-empty query, the stripped answer is longer
    than 3 and, lowercased, holds a token of the lowercased query that is
    longer than two code points. *)
Theorem accepted_answer_shares_token (a q : pystr) :
  q <> [] ->
  is_meaningful_answer (Some a) (Some q) = true ->
  (3 < List.length (strip a))%nat
  /\ exists w x y,
       In w (split (lower q)) /\ (2 < List.length w)%nat
       /\ lower (strip a) = x ++ w ++ y.
Proof.
  intros Hq H. split; [exact (is_meaningful_answer_long _ _ H)|].
  unfold is_meaningful_answer in H.
  destruct (is_empty (strip a)); [discriminate|].
  destruct (_ <=? 3)%nat; [discriminate|].
  destruct q as [|c q]; [congruence|]. cbn [truthy str_or_empty] in H.
  destruct (is_empty _); [discriminate|].
  destruct (existsb _ _) eqn:E; [|discriminate].
  apply existsb_exists in E. destruct E as (w & Hin & Hc).
  apply in_significant in Hin. apply contains_spec in Hc.
  destruct Hin as [Hin Hlen]. destruct Hc as (x & y & Hc).
  exists w, x, y. split; [exact Hin|]. split; [exact Hlen | exact Hc].
Qed.

(* ================================================================== *)
(** ** Further properties of the composer and of [chat] *)
(* ================================================================== *)

Lemma unified_output_nonempty (q : pystr) (s : state) :
  fst (unified_chatbot q s) <> [].
Proof.
  destruct (is_greeting q) eqn:Hg.
  - unfold unified_chatbot. rewrite Hg. discriminate.
  - destruct (api_answer (preprocess_text q) s) as [a s1] eqn:Ha.
    destruct (ask_app (preprocess_text q) s1) as [raw s2] eqn:Hr.
    rewrite (unified_chatbot_run _ _ Hg Ha Hr). cbn [fst].
    apply render_nonempty, response_parts_nonempty.
Qed.

Lemma is_greeting_nil : is_greeting [] = false.
Proof. unfold is_greeting. cbn [strip lstrip rstrip rev]. now rewrite lower_nil. Qed.

(** X10. The empty normalized query.  [is_meaningful_answer] skips its
    token test for the empty query and accepts every answer longer than 3;
    [unified_chatbot] all the same returns the fallback string when a query
    normalizes to the empty string, after asking both answerers with the
    empty string. *)
Theorem empty_normalized_query (q : pystr) (s : state) :
  is_greeting q = false ->
  preprocess_text q = [] ->
  (forall a, (3 < List.length (strip a))%nat ->
             is_meaningful_answer (Some a) (Some []) = true)
  /\ fst (unified_chatbot q s) = fallback_response
  /\ calls (snd (unified_chatbot q s)) = calls s ++ [AskApi []; AskApp []].
Proof.
  intros Hg Hn. split; [|split].
  - intros a Hlen. unfold is_meaningful_answer.
    destruct (strip a) as [|c t] eqn:E; [simpl in Hlen; lia|].
    cbn [is_empty]. apply Nat.leb_gt in Hlen. now rewrite Hlen.
  - destruct (api_answer (preprocess_text q) s) as [a s1] eqn:Ha.
    destruct (ask_app (preprocess_text q) s1) as [raw s2] eqn:Hr.
    rewrite (unified_chatbot_run _ _ Hg Ha Hr). cbn [fst].
    assert (Hnone : a = None).
    { pose proof (api_answer_no_words (preprocess_text q) s) as Hw.
      rewrite Ha, Hn, lower_nil in Hw. exact (Hw eq_refl). }
    subst a. rewrite keep_app_rejected; [reflexivity|].
    unfold app_rejected. rewrite Hn. cbn. apply orb_true_r.
  - destruct (api_answer (preprocess_text q) s) as [a s1] eqn:Ha.
    destruct (ask_app (preprocess_text q) s1) as [raw s2] eqn:Hr.
    rewrite (unified_chatbot_run _ _ Hg Ha Hr). cbn [snd].
    rewrite Hn in Ha, Hr.
    pose proof (proj2 (api_answer_effect [] s) is_greeting_nil) as He.
    rewrite Ha in He. cbn [snd] in He. subst s1.
    unfold ask_app in Hr. cbn [world calls] in Hr.
    destruct (hostel_chatbot [] _) as [r w].
    inversion Hr; subst. cbn [calls]. now rewrite <- app_assoc.
Qed.

(** X11. [chat] keeps the history free of empty turns: when no turn of the
    history passed has an empty content, none of the history returned has;
    the user turn holds a message that is not blank and the assistant turn
    a reply that is never empty. *)
Theorem chat_keeps_turns_nonempty
        (user_message : pystr) (history : option (list turn)) (s : state) :
  Forall (fun t => content t <> []) (history_or_empty history) ->
  Forall (fun t => content t <> [])
         (fst (fst (chat user_message history s))).
Proof.
  intros H. unfold chat.
  destruct (strip user_message) as [|c t] eqn:E; cbn [is_empty].
  - exact H.
  - unfold bind, ret.
    pose proof (unified_output_nonempty user_message s) as Hb.
    destruct (unified_chatbot user_message s) as [bot s']. cbn [fst] in *.
    apply Forall_app. split; [exact H|].
    constructor; [|constructor; [exact Hb | constructor]].
    cbn [content]. intros ->. discriminate E.
Qed.

(** X12. When the answer that [api_answer] returned is longer than 3 after
    stripping and the local answer is rejected, the reply is the engine's
    text as the engine gave it: not stripped, not lowercased, with nothing
    before or after it. *)
Theorem remote_only_reply_is_verbatim
        (q : pystr) (s s1 s2 : state) (r : pystr)
        (raw : option pystr * option pystr * option pystr) :
  is_greeting q = false ->
  api_answer (preprocess_text q) s = (Some r, s1) ->
  (3 < List.length (strip r))%nat ->
  ask_app (preprocess_text q) s1 = (raw, s2) ->
  app_rejected (str_or_empty (fst (fst raw))) (preprocess_text q)
               (significant (split (preprocess_text q))) = true ->
  unified_chatbot q s = (r, s2).
Proof.
  intros Hg Ha Hlen Hr Hrej.
  rewrite (unified_chatbot_run _ _ Hg Ha Hr).
  rewrite (keep_app_rejected _ _ _ Hrej).
  rewrite keep_api_accepted.
  - destruct r as [|c r]; [simpl in Hlen; lia | reflexivity].
  - rewrite (api_answer_then_meaningful _ _ Ha).
    apply Nat.leb_gt in Hlen. now rewrite Hlen.
Qed.

(* ------------------------------------------------------------------ *)
(** *** [chat] on list objects *)

Lemma deref_alloc_new (h : heap) (v : list turn) :
  deref (h ++ [v]) (List.length h) = v.
Proof. unfold deref. now rewrite nth_middle. Qed.

Lemma deref_alloc_old (h : heap) (v : list turn) (l : nat) :
  (l < List.length h)%nat -> deref (h ++ [v]) l = deref h l.
Proof. intros H. unfold deref. now rewrite app_nth1. Qed.

Lemma set_list_length (h : heap) (l : nat) (v : list turn) :
  List.length (set_list h l v) = List.length h.
Proof.
  revert l; induction h as [|x h IH]; intros [|l]; simpl; auto.
Qed.

Lemma deref_set_same (h : heap) (l : nat) (v : list turn) :
  (l < List.length h)%nat -> deref (set_list h l v) l = v.
Proof.
  revert l; induction h as [|x h IH]; intros [|l]; simpl; try lia; auto.
  intros H. apply IH. lia.
Qed.

Lemma deref_set_other (h : heap) (l l0 : nat) (v : list turn) :
  l0 <> l -> deref (set_list h l v) l0 = deref h l0.
Proof.
  revert l l0; induction h as [|x h IH]; intros [|l] [|l0] H; simpl;
    try reflexivity; try congruence.
  apply IH. congruence.
Qed.

(** Two appends in a row, seen from every address. *)
Lemma append_twice (h : heap) (l : nat) (t1 t2 : turn) :
  (l < List.length h)%nat ->
  deref (append_turn (append_turn h l t1) l t2) l = deref h l ++ [t1; t2]
  /\ List.length (append_turn (append_turn h l t1) l t2) = List.length h
  /\ forall l0, l0 <> l ->
       deref (append_turn (append_turn h l t1) l t2) l0 = deref h l0.
Proof.
  intros H. unfold append_turn. repeat split.
  - rewrite !deref_set_same; rewrite ?set_list_length; try assumption.
    now rewrite <- app_assoc.
  - now rewrite !set_list_length.
  - intros l0 Hne. now rewrite !deref_set_other.
Qed.

(** [history or []] gives a live address whose list has the value of the
    history passed. *)
Lemma history_or_new_value (history : option nat) (h : heap) :
  (forall l, history = Some l -> (l < List.length h)%nat) ->
  (fst (history_or_new history h) < List.length (snd (history_or_new history h)))%nat
  /\ deref (snd (history_or_new history h)) (fst (history_or_new history h))
     = history_or_empty (option_map (deref h) history).
Proof.
  intros Hv. unfold history_or_new, alloc.
  destruct history as [l|]; simpl.
  - destruct (deref h l) as [|t ts] eqn:E; simpl.
    + rewrite length_app, deref_alloc_new. simpl. split; [lia | reflexivity].
    + split; [now apply Hv | now rewrite E].
  - rewrite length_app, deref_alloc_new. simpl. split; [lia | reflexivity].
Qed.

(** X13. [chat] on list objects returns what [chat] on values describes:
    the list found at the address returned is the history that the value
    model returns for the list that was passed, the input box is reset the
    same way, and the answerers are left in the same state. *)
Theorem chat_in_place_agrees
        (user_message : pystr) (history : option nat) (h h' : heap)
        (s s' : state) (l' : nat) (box : pystr) :
  (forall l, history = Some l -> (l < List.length h)%nat) ->
  chat_in_place user_message history h s = (((l', box), h'), s') ->
  chat user_message (option_map (deref h) history) s
  = ((deref h' l', box), s').
Proof.
  intros Hv. destruct (@history_or_new_value history h Hv) as [Hlt Hd].
  unfold chat_in_place, chat.
  destruct (history_or_new history h) as [l0 h0]. cbn [fst snd] in Hlt, Hd.
  destruct (is_empty (strip user_message)).
  - unfold ret. intros E. inversion E; subst. now rewrite Hd.
  - unfold bind, ret. destruct (unified_chatbot user_message s) as [bot s1].
    intros E. inversion E; subst.
    destruct (@append_twice h0 l'
                {| role := py "user"; content := user_message |}
                {| role := py "assistant"; content := bot |} Hlt)
      as [Ha _].
    now rewrite Ha, Hd.
Qed.

(** X14. Which list [chat] writes to.  A non-empty history list is extended
    in place: the address returned is the one passed, no list object is
    created and no other list changes.  For an empty history list, or
    [None], a new list object is returned and every list that existed,
    the caller's empty one included, is left as it was. *)
Theorem chat_in_place_aliasing
        (user_message : pystr) (history : option nat) (h h' : heap)
        (s s' : state) (l' : nat) (box : pystr) :
  (forall l, history = Some l -> (l < List.length h)%nat) ->
  chat_in_place user_message history h s = (((l', box), h'), s') ->
  (forall l, history = Some l -> deref h l <> [] ->
     l' = l /\ List.length h' = List.length h
     /\ forall l0, l0 <> l -> deref h' l0 = deref h l0)
  /\ (history_or_empty (option_map (deref h) history) = [] ->
      l' = List.length h /\ List.length h' = S (List.length h)
      /\ forall l0, (l0 < List.length h)%nat -> deref h' l0 = deref h l0).
Proof.
  intros Hv H. unfold chat_in_place in H. split.
  - intros l -> Hne. specialize (Hv l eq_refl). revert H.
    unfold history_or_new.
    destruct (deref h l) as [|t ts] eqn:E; [congruence|]. cbn [is_empty].
    destruct (is_empty (strip user_message)).
    + unfold ret. intros E'. inversion E'; subst. auto.
    + unfold bind, ret.
      destruct (unified_chatbot user_message s) as [bot s1].
      intros E'. inversion E'; subst.
      destruct (@append_twice h l'
                  {| role := py "user"; content := user_message |}
                  {| role := py "assistant"; content := bot |} Hv)
        as (_ & Hlen & Hoth).
      auto.
  - intros Hempty. revert H.
    assert (Hnew : history_or_new history h = alloc h []).
    { unfold history_or_new. destruct history as [l|]; [|reflexivity].
      simpl in Hempty. now rewrite Hempty. }
    rewrite Hnew. unfold alloc.
    destruct (is_empty (strip user_message)).
    + unfold ret. intros E'. inversion E'; subst.
      rewrite length_app. simpl. repeat split; [lia|].
      intros l0 Hl0. now apply deref_alloc_old.
    + unfold bind, ret.
      destruct (unified_chatbot user_message s) as [bot s1].
      intros E'. inversion E'; subst.
      assert (Hlt : (List.length h < List.length (h ++ [[]]))%nat)
        by (rewrite length_app; simpl; lia).
      destruct (@append_twice (h ++ [[]]) (List.length h)
                  {| role := py "user"; content := user_message |}
                  {| role := py "assistant"; content := bot |} Hlt)
        as (_ & Hlen & Hoth).
      rewrite Hlen, length_app. simpl. repeat split; [lia|].
      intros l0 Hl0. rewrite Hoth by lia. now apply deref_alloc_old.
Qed.

(** X15. A greeting sent through [chat] adds the user turn and the fixed
    greeting as the assistant turn, and asks neither answerer: the state
    comes back as it was. *)
Theorem chat_on_greeting
        (user_message : pystr) (history : option (list turn)) (s : state) :
  In (lower (strip user_message)) greetings ->
  chat user_message history s
  = ((history_or_empty history
        ++ [ {| role := py "user"; content := user_message |};
             {| role := py "assistant"; content := greeting_response |} ],
      []),
     s).
Proof.
  intros Hin. pose proof (proj2 (is_greeting_iff user_message) Hin) as Hg.
  unfold chat.
  destruct (strip user_message) as [|c t] eqn:E.
  - exfalso. rewrite lower_nil in Hin. apply in_list_iff in Hin.
    discriminate Hin.
  - cbn [is_empty]. unfold bind, ret, unified_chatbot. rewrite Hg.
    reflexivity.
Qed.

(** X16. What a kept local answer guarantees.  When [unified_chatbot]
    keeps the answer of the knowledge base, it is that answer unchanged,
    with its link and image unchanged; its stripped form is longer than 3
    and, lowercased, holds none of the four phrases; and the normalized
    query has a token longer than two code points. *)
Theorem kept_local_answer
        (a l i : option pystr) (nq : pystr) (words : list pystr)
        (ans link img : pystr) :
  keep_app (a, l, i) nq words = (ans, link, img) ->
  ans <> [] ->
  ans = str_or_empty a /\ link = str_or_empty l /\ img = str_or_empty i
  /\ words <> []
  /\ (3 < List.length (strip ans))%nat
  /\ forall p, In p invalid_phrases ->
               contains p (lower (strip ans)) = false.
Proof.
  intros E Hne. unfold keep_app in E.
  destruct (app_rejected (str_or_empty a) nq words) eqn:R;
    inversion E; subst; [congruence|].
  unfold app_rejected in R. rewrite !orb_false_iff, !negb_false_iff in R.
  destruct R as [[Hv Hm] Hw].
  split; [reflexivity|]. split; [reflexivity|]. split; [reflexivity|].
  split; [intros N; rewrite N in Hw; discriminate Hw|].
  split; [exact (is_meaningful_answer_long _ _ Hm)|].
  intros p Hp. unfold is_valid_app_answer in Hv.
  destruct (is_empty _); [discriminate|]. apply negb_true_iff in Hv.
  destruct (contains p (lower (strip (str_or_empty a)))) eqn:C;
    [|reflexivity].
  assert (existsb (fun phrase =>
                     contains phrase (lower (strip (str_or_empty a))))
                  invalid_phrases = true)
    by (apply existsb_exists; now exists p).
  congruence.
Qed.

End Chatbot.

(* ================================================================== *)
(** ** The claims on the small instance *)
(* ================================================================== *)

(** On ASCII text the runtime's lowering is [ascii_lower]; it has the two
    properties asked of [lower]. *)
Lemma ascii_lower_fixes (w : list N) :
  forallb ascii_nonupper w = true -> ascii_lower w = w.
Proof.
  induction w as [|c w IH]; simpl; [reflexivity|].
  rewrite andb_true_iff. intros [Hc Hw]. rewrite (IH Hw). f_equal.
  unfold ascii_nonupper in Hc. unfold ascii_lower_char.
  apply andb_true_iff in Hc. destruct Hc as [_ Hc].
  apply negb_true_iff in Hc. now rewrite Hc.
Qed.

Lemma ascii_lower_keeps (w s : list N) :
  forallb ascii_nonupper w = true ->
  contains w s = true -> contains w (ascii_lower s) = true.
Proof.
  intros Hw. rewrite !contains_spec. intros (a & b & ->).
  exists (ascii_lower a), (ascii_lower b). unfold ascii_lower.
  rewrite !map_app. f_equal. f_equal. now apply ascii_lower_fixes.
Qed.

(** C1 on the input "  Hello ": nothing is asked, nothing changes. *)
Lemma greeting_short_circuit_witness :
  In (ascii_lower (strip (py "  Hello "))) greetings
  /\ unified_chatbot ascii_lower Demo.normalize Demo.engine
                     Demo.knowledge_base (py "  Hello ")
                     {| world := 0; calls := [] |}
     = (greeting_response, {| world := 0; calls := [] |}).
Proof.
  assert (H : In (ascii_lower (strip (py "  Hello "))) greetings).
  { vm_compute. right; left; reflexivity. }
  split; [exact H|].
  exact (proj1 (greeting_short_circuit
                  ascii_lower Demo.normalize Demo.engine Demo.knowledge_base
                  (py "  Hello ") {| world := 0; calls := [] |} H)).
Defined.

(** C2 as claimed fails on the answer "ok": two characters, and
    [is_valid_app_answer] accepts it. *)
Lemma valid_app_answer_accepts_short :
  (List.length (py "ok") <= 3)%nat
  /\ (List.length (strip (py "ok")) <= 3)%nat
  /\ is_valid_app_answer ascii_lower (Some (py "ok")) = true.
Proof. vm_compute. repeat split; lia. Qed.

(** C2 as amended, on the answers "   " and "ok". *)
Lemma filter_shapes_witness :
  ascii_lower [] = []
  /\ is_valid_app_answer ascii_lower (Some (py "   ")) = false
  /\ is_meaningful_answer ascii_lower (Some (py "ok")) (Some (py "wifi"))
     = false.
Proof.
  pose proof (@filter_shapes nat ascii_lower Demo.normalize Demo.engine
                             Demo.knowledge_base eq_refl) as H.
  split; [reflexivity|]. split.
  - apply (proj1 (proj2 (proj2 (proj2 (proj2 (proj2 H)))))). reflexivity.
  - apply (proj1 (proj2 (proj2 H))). vm_compute. lia.
Defined.

(** C3 as claimed fails on [is_meaningful_answer]: this answer contains
    "sorry" and is accepted for the query "mess fee" (and with no query). *)
Lemma meaningful_answer_accepts_sorry :
  contains (py "sorry") (py "sorry, the mess fee is 2000") = true
  /\ is_meaningful_answer ascii_lower (Some (py "sorry, the mess fee is 2000"))
                          (Some (py "mess fee")) = true
  /\ is_meaningful_answer ascii_lower (Some (py "sorry, the mess fee is 2000"))
                          None = true.
Proof. vm_compute. repeat split. Qed.

(** C3 as amended, on the answer "I am sorry, no fee data". *)
Lemma sorry_rejected_by_the_gates_witness :
  contains (py "sorry") (py "I am sorry, no fee data") = true
  /\ is_valid_app_answer ascii_lower (Some (py "I am sorry, no fee data"))
     = false.
Proof.
  assert (H : contains (py "sorry") (py "I am sorry, no fee data") = true)
    by reflexivity.
  split; [exact H|].
  exact (proj1 (proj2 (@sorry_rejected_by_the_gates
                         nat ascii_lower Demo.engine ascii_lower_keeps
                         (py "I am sorry, no fee data") H))).
Defined.

(** C4 on the query "asdfgh": the engine's answer shares no token with it
    and the knowledge base apologises. *)
Lemma fallback_when_nothing_accepted_witness :
  unified_chatbot ascii_lower Demo.normalize Demo.engine Demo.knowledge_base
                  (py "asdfgh") {| world := 0; calls := [] |}
  = (fallback_response,
     {| world := 2; calls := [AskApi (py "asdfgh"); AskApp (py "asdfgh")] |}).
Proof.
  apply (@fallback_when_nothing_accepted
           nat ascii_lower Demo.normalize Demo.engine Demo.knowledge_base
           (py "asdfgh") {| world := 0; calls := [] |}
           {| world := 1; calls := [AskApi (py "asdfgh")] |}
           {| world := 2;
              calls := [AskApi (py "asdfgh"); AskApp (py "asdfgh")] |}
           None
           (Some (py "Sorry, I could not understand your question"),
            None, None));
    vm_compute; reflexivity.
Defined.

(** C5 on the query " Is  it OK ": normalized to "is it ok", no token longer
    than 2, although both answerers say something. *)
Lemma no_significant_token_gives_fallback_witness :
  significant (split (Demo.normalize (py " Is  it OK "))) = []
  /\ fst (Demo.engine (Demo.normalize (py " Is  it OK ")) 0)
     = Some (py "Please ask about the mess fee or the gym")
  /\ fst (unified_chatbot ascii_lower Demo.normalize Demo.engine
                          Demo.knowledge_base (py " Is  it OK ")
                          {| world := 0; calls := [] |})
     = fallback_response.
Proof.
  split; [reflexivity|]. split; [reflexivity|].
  apply (@no_significant_token_gives_fallback
           nat ascii_lower Demo.normalize Demo.engine Demo.knowledge_base
           (py " Is  it OK ") {| world := 0; calls := [] |});
    vm_compute; reflexivity.
Defined.

(** C6 on the answer "Gym", which the engine gives for the query "gym" and
    which passes [api_answer] (the token "gym" occurs in it). *)
Lemma short_answer_never_used_witness :
  (List.length (strip (py "Gym")) <= 3)%nat
  /\ api_answer ascii_lower Demo.engine (Demo.normalize (py "gym"))
                {| world := 0; calls := [] |}
     = (Some (py "Gym"), {| world := 1; calls := [AskApi (py "gym")] |})
  /\ unified_chatbot ascii_lower Demo.normalize Demo.engine
                     Demo.knowledge_base (py "gym")
                     {| world := 0; calls := [] |}
     = (fallback_response,
        {| world := 2; calls := [AskApi (py "gym"); AskApp (py "gym")] |}).
Proof.
  assert (Hlen : (List.length (strip (py "Gym")) <= 3)%nat)
    by (vm_compute; lia).
  assert (Ha : api_answer ascii_lower Demo.engine (Demo.normalize (py "gym"))
                          {| world := 0; calls := [] |}
               = (Some (py "Gym"),
                  {| world := 1; calls := [AskApi (py "gym")] |}))
    by (vm_compute; reflexivity).
  split; [exact Hlen|]. split; [exact Ha|].
  exact (proj1 (proj2 (@short_answer_never_used
                         nat ascii_lower Demo.normalize Demo.engine
                         Demo.knowledge_base (py "Gym") Hlen))
           (py "gym") {| world := 0; calls := [] |}
           {| world := 1; calls := [AskApi (py "gym")] |}
           {| world := 2; calls := [AskApi (py "gym"); AskApp (py "gym")] |}
           (Some (py "Gym"), Some (py "https://hostel.example/gym"), None)
           eq_refl Ha eq_refl).
Defined.

(** C7 on a blank message without history, and on "hi" after one turn. *)
Lemma chat_appends_two_turns_witness :
  chat ascii_lower Demo.normalize Demo.engine Demo.knowledge_base
       (py "   ") None {| world := 0; calls := [] |}
  = (([], []), {| world := 0; calls := [] |})
  /\ chat ascii_lower Demo.normalize Demo.engine Demo.knowledge_base
          (py "hi")
          (Some [ {| role := py "assistant"; content := py "Welcome" |} ])
          {| world := 0; calls := [] |}
     = (([ {| role := py "assistant"; content := py "Welcome" |};
           {| role := py "user"; content := py "hi" |};
           {| role := py "assistant"; content := greeting_response |} ],
         []),
        {| world := 0; calls := [] |}).
Proof.
  split.
  - exact (proj1 (chat_appends_two_turns
                    ascii_lower Demo.normalize Demo.engine
                    Demo.knowledge_base (py "   ") None
                    {| world := 0; calls := [] |}) eq_refl).
  - exact (proj2 (chat_appends_two_turns
                    ascii_lower Demo.normalize Demo.engine
                    Demo.knowledge_base (py "hi")
                    (Some [ {| role := py "assistant";
                               content := py "Welcome" |} ])
                    {| world := 0; calls := [] |}) eq_refl).
Defined.

(** C8 on the query "What is the mess FEE?": both answers are kept, with
    the link and the image. *)
Lemma composed_in_fixed_order_witness :
  unified_chatbot ascii_lower Demo.normalize Demo.engine Demo.knowledge_base
                  (py "What is the mess FEE?") {| world := 0; calls := [] |}
  = (join paragraph_break
          [ py "The mess fee is 2000 per month";
            py "Mess fee can be paid online";
            link_prefix ++ py "https://hostel.example/fees";
            image_prefix ++ py "fees.png" ],
     {| world := 2;
        calls := [AskApi (py "what is the mess fee?");
                  AskApp (py "what is the mess fee?")] |}).
Proof.
  apply (@composed_in_fixed_order
           nat ascii_lower Demo.normalize Demo.engine Demo.knowledge_base
           (py "What is the mess FEE?") {| world := 0; calls := [] |}
           {| world := 1; calls := [AskApi (py "what is the mess fee?")] |}
           {| world := 2;
              calls := [AskApi (py "what is the mess fee?");
                        AskApp (py "what is the mess fee?")] |}
           (Some (py "The mess fee is 2000 per month"))
           (Some (py "Mess fee can be paid online"),
            Some (py "https://hostel.example/fees"), Some (py "fees.png"))
           (py "Mess fee can be paid online")
           (py "https://hostel.example/fees") (py "fees.png"));
    try (vm_compute; reflexivity).
  right. discriminate.
Defined.

(** C9 on the query "gym": the local answer "Gym" is too short, and its
    link goes with it. *)
Lemma link_and_image_follow_app_answer_witness :
  fst (Demo.knowledge_base (Demo.normalize (py "gym")) 1)
  = (Some (py "Gym"), Some (py "https://hostel.example/gym"), None)
  /\ answer_parts ascii_lower Demo.engine Demo.knowledge_base
                  (Demo.normalize (py "gym")) {| world := 0; calls := [] |}
     = ([], {| world := 2; calls := [AskApi (py "gym"); AskApp (py "gym")] |}).
Proof.
  split; [reflexivity|].
  apply (proj1 (@link_and_image_follow_app_answer
                  nat ascii_lower Demo.normalize Demo.engine
                  Demo.knowledge_base
                  (py "gym") {| world := 0; calls := [] |}
                  {| world := 1; calls := [AskApi (py "gym")] |}
                  {| world := 2;
                     calls := [AskApi (py "gym"); AskApp (py "gym")] |}
                  (Some (py "Gym")) (Some (py "Gym"))
                  (Some (py "https://hostel.example/gym")) None
                  eq_refl eq_refl eq_refl)).
  vm_compute. reflexivity.
Defined.

(* ================================================================== *)
(** ** The further properties on the small instance *)
(* ================================================================== *)

(** X1 on the question "what is the mess fee?". *)
Lemma api_answer_sound_witness :
  api_answer ascii_lower Demo.engine (py "what is the mess fee?")
             {| world := 0; calls := [] |}
  = (Some (py "The mess fee is 2000 per month"),
     {| world := 1; calls := [AskApi (py "what is the mess fee?")] |})
  /\ exists w,
       In w (split (ascii_lower (py "what is the mess fee?")))
       /\ (2 < List.length w)%nat
       /\ contains w (ascii_lower
                        (strip (py "The mess fee is 2000 per month")))
          = true.
Proof.
  assert (H : api_answer ascii_lower Demo.engine (py "what is the mess fee?")
                         {| world := 0; calls := [] |}
              = (Some (py "The mess fee is 2000 per month"),
                 {| world := 1;
                    calls := [AskApi (py "what is the mess fee?")] |}))
    by (vm_compute; reflexivity).
  split; [exact H|].
  exact (proj2 (proj2 (proj2 (proj2 (@api_answer_sound nat ascii_lower Demo.engine _ _ _ _ H))))).
Defined.

(** X2 on the questions "hello" and "gym". *)
Lemma api_answer_asks_once_witness :
  api_answer ascii_lower Demo.engine (py "hello")
             {| world := 0; calls := [] |}
  = (None, {| world := 0; calls := [] |})
  /\ calls (snd (api_answer ascii_lower Demo.engine (py "gym")
                            {| world := 0; calls := [] |}))
     = [AskApi (py "gym")].
Proof.
  split.
  - exact (proj1 (api_answer_asks_once ascii_lower Demo.engine (py "hello")
                    {| world := 0; calls := [] |}) eq_refl).
  - exact (proj2 (proj2 (api_answer_asks_once ascii_lower Demo.engine
                           (py "gym") {| world := 0; calls := [] |})
                        eq_refl)).
Defined.

(** X3 on "good   morning": no greeting as typed, a greeting once
    normalized, so only the knowledge base is asked. *)
Lemma unified_chatbot_call_order_witness :
  is_greeting ascii_lower (py "good   morning") = false
  /\ is_greeting ascii_lower (Demo.normalize (py "good   morning")) = true
  /\ calls (snd (unified_chatbot ascii_lower Demo.normalize Demo.engine
                                 Demo.knowledge_base (py "good   morning")
                                 {| world := 0; calls := [] |}))
     = [AskApp (py "good morning")].
Proof.
  split; [reflexivity|]. split; [reflexivity|].
  exact (unified_chatbot_call_order
           ascii_lower Demo.normalize Demo.engine Demo.knowledge_base
           (py "good   morning") {| world := 0; calls := [] |} eq_refl).
Defined.

(** X4 on the phrase "no data" for an engine that always says so, and on
    "not understand" for the validity test. *)
Lemma every_failure_phrase_blocks_witness :
  fst (api_answer ascii_lower
                  (fun _ (w : unit) =>
                     (Some (py "There is no data on the mess"), w))
                  (py "mess data") {| world := tt; calls := [] |})
  = None
  /\ is_valid_app_answer ascii_lower (Some (py "I did not understand that"))
     = false.
Proof.
  split.
  - apply (proj1 (@every_failure_phrase_blocks
                    unit ascii_lower
                    (fun _ (w : unit) =>
                       (Some (py "There is no data on the mess"), w))
                    ascii_lower_keeps
                    (py "no data") (py "There is no data on the mess")
                    eq_refl))
      with (w := tt).
    + vm_compute. tauto.
    + reflexivity.
  - apply (proj2 (@every_failure_phrase_blocks
                    unit ascii_lower
                    (fun _ (w : unit) => (None, w))
                    ascii_lower_keeps
                    (py "not understand") (py "I did not understand that")
                    eq_refl)).
    vm_compute. tauto.
Defined.

(** X5 on an apology that shares the token "question" with the question. *)
Lemma api_answer_stricter_than_validity_witness :
  is_valid_app_answer
    ascii_lower (Some (py "I could not understand your question")) = false
  /\ fst (api_answer ascii_lower
                     (fun _ (w : unit) =>
                        (Some (py "I could not understand your question"), w))
                     (py "my question") {| world := tt; calls := [] |})
     = None.
Proof.
  split; [reflexivity|].
  exact (@api_answer_stricter_than_validity
           unit ascii_lower
           (fun _ (w : unit) =>
              (Some (py "I could not understand your question"), w))
           (py "my question") {| world := tt; calls := [] |}
           (py "I could not understand your question") tt
           eq_refl eq_refl).
Defined.

(** X6 on the answer "Gym" to the question "gym". *)
Lemma remote_answer_kept_iff_long_witness :
  api_answer ascii_lower Demo.engine (py "gym") {| world := 0; calls := [] |}
  = (Some (py "Gym"), {| world := 1; calls := [AskApi (py "gym")] |})
  /\ keep_api ascii_lower (Some (py "Gym")) (py "gym") = None.
Proof.
  assert (H : api_answer ascii_lower Demo.engine (py "gym")
                         {| world := 0; calls := [] |}
              = (Some (py "Gym"),
                 {| world := 1; calls := [AskApi (py "gym")] |}))
    by (vm_compute; reflexivity).
  split; [exact H|].
  exact (proj2 (@remote_answer_kept_iff_long nat ascii_lower Demo.engine _ _ _ _ H)).
Defined.

(** X7 on an answer accepted for the query "mess fee". *)
Lemma query_only_restricts_witness :
  is_meaningful_answer ascii_lower
                       (Some (py "The mess fee is 2000 per month")) None
  = true.
Proof.
  apply (@query_only_restricts
           ascii_lower (Some (py "The mess fee is 2000 per month"))
           (Some (py "mess fee"))).
  reflexivity.
Defined.

(** X8 on "Hello" between two spaces and a line feed. *)
Lemma predicates_ignore_padding_witness :
  is_greeting ascii_lower (py "  " ++ py "Hello" ++ [10%N])
  = is_greeting ascii_lower (py "Hello").
Proof.
  exact (proj1 (@predicates_ignore_padding
                  ascii_lower (py "  ") (py "Hello") [10%N] None
                  eq_refl eq_refl)).
Defined.

(** X9 on a local answer accepted for the query "mess fee". *)
Lemma accepted_answer_shares_token_witness :
  (3 < List.length (strip (py "Mess fee can be paid online")))%nat
  /\ exists w x y,
       In w (split (ascii_lower (py "mess fee")))
       /\ (2 < List.length w)%nat
       /\ ascii_lower (strip (py "Mess fee can be paid online"))
          = x ++ w ++ y.
Proof.
  apply (@accepted_answer_shares_token
           ascii_lower (py "Mess fee can be paid online") (py "mess fee")).
  - discriminate.
  - reflexivity.
Defined.

(** X10 on a query of three spaces, called directly. *)
Lemma empty_normalized_query_witness :
  Demo.normalize (py "   ") = []
  /\ fst (unified_chatbot ascii_lower Demo.normalize Demo.engine
                          Demo.knowledge_base (py "   ")
                          {| world := 0; calls := [] |})
     = fallback_response
  /\ calls (snd (unified_chatbot ascii_lower Demo.normalize Demo.engine
                                 Demo.knowledge_base (py "   ")
                                 {| world := 0; calls := [] |}))
     = [AskApi []; AskApp []].
Proof.
  split; [reflexivity|].
  exact (proj2 (@empty_normalized_query
                  nat ascii_lower Demo.normalize Demo.engine
                  Demo.knowledge_base eq_refl
                  (py "   ") {| world := 0; calls := [] |}
                  eq_refl eq_refl)).
Defined.

(** X11 on the message "gym" after one turn. *)
Lemma chat_keeps_turns_nonempty_witness :
  Forall (fun t => content t <> [])
         (fst (fst (chat ascii_lower Demo.normalize Demo.engine
                         Demo.knowledge_base (py "gym")
                         (Some [ {| role := py "assistant";
                                    content := py "Welcome" |} ])
                         {| world := 0; calls := [] |}))).
Proof.
  apply chat_keeps_turns_nonempty.
  constructor; [discriminate | constructor].
Defined.

(** X12 on "Please help": the engine's hint shares "please" with the query
    and the knowledge base apologises. *)
Lemma remote_only_reply_is_verbatim_witness :
  unified_chatbot ascii_lower Demo.normalize Demo.engine Demo.knowledge_base
                  (py "Please help") {| world := 0; calls := [] |}
  = (py "Please ask about the mess fee or the gym",
     {| world := 2;
        calls := [AskApi (py "please help"); AskApp (py "please help")] |}).
Proof.
  apply (@remote_only_reply_is_verbatim
           nat ascii_lower Demo.normalize Demo.engine Demo.knowledge_base
           (py "Please help") {| world := 0; calls := [] |}
           {| world := 1; calls := [AskApi (py "please help")] |}
           {| world := 2;
              calls := [AskApi (py "please help");
                        AskApp (py "please help")] |}
           (py "Please ask about the mess fee or the gym")
           (Some (py "Sorry, I could not understand your question"),
            None, None));
    try (vm_compute; reflexivity).
  vm_compute. lia.
Defined.

(** X13 on the message "hi" with the one-turn list at address 0. *)
Lemma chat_in_place_agrees_witness :
  chat ascii_lower Demo.normalize Demo.engine Demo.knowledge_base
       (py "hi")
       (Some [ {| role := py "assistant"; content := py "Welcome" |} ])
       {| world := 0; calls := [] |}
  = (([ {| role := py "assistant"; content := py "Welcome" |};
        {| role := py "user"; content := py "hi" |};
        {| role := py "assistant"; content := greeting_response |} ],
      []),
     {| world := 0; calls := [] |}).
Proof.
  assert (Hv : forall l, Some 0%nat = Some l ->
                 (l < List.length
                        [ [ {| role := py "assistant";
                               content := py "Welcome" |} ]; [] ])%nat)
    by (intros l E; inversion E; simpl; lia).
  exact (@chat_in_place_agrees
           nat ascii_lower Demo.normalize Demo.engine Demo.knowledge_base
           (py "hi") (Some 0%nat)
           [ [ {| role := py "assistant"; content := py "Welcome" |} ]; [] ]
           [ [ {| role := py "assistant"; content := py "Welcome" |};
               {| role := py "user"; content := py "hi" |};
               {| role := py "assistant"; content := greeting_response |} ];
             [] ]
           {| world := 0; calls := [] |} {| world := 0; calls := [] |}
           0%nat [] Hv eq_refl).
Defined.

(** X14 on the message "hi" with the empty list at address 1: the reply
    goes to a new list at address 2 and the list at address 1 stays empty. *)
Lemma chat_in_place_aliasing_witness :
  chat_in_place ascii_lower Demo.normalize Demo.engine Demo.knowledge_base
                (py "hi") (Some 1%nat)
                [ [ {| role := py "assistant"; content := py "Welcome" |} ];
                  [] ]
                {| world := 0; calls := [] |}
  = (((2%nat, []),
      [ [ {| role := py "assistant"; content := py "Welcome" |} ];
        [];
        [ {| role := py "user"; content := py "hi" |};
          {| role := py "assistant"; content := greeting_response |} ] ]),
     {| world := 0; calls := [] |})
  /\ forall l0,
       (l0 < 2)%nat ->
       deref [ [ {| role := py "assistant"; content := py "Welcome" |} ];
               [];
               [ {| role := py "user"; content := py "hi" |};
                 {| role := py "assistant";
                    content := greeting_response |} ] ] l0
       = deref [ [ {| role := py "assistant"; content := py "Welcome" |} ];
                 [] ] l0.
Proof.
  assert (Hv : forall l, Some 1%nat = Some l ->
                 (l < List.length
                        [ [ {| role := py "assistant";
                               content := py "Welcome" |} ]; [] ])%nat)
    by (intros l E; inversion E; simpl; lia).
  assert (Hrun :
    chat_in_place ascii_lower Demo.normalize Demo.engine Demo.knowledge_base
                  (py "hi") (Some 1%nat)
                  [ [ {| role := py "assistant"; content := py "Welcome" |} ];
                    [] ]
                  {| world := 0; calls := [] |}
    = (((2%nat, []),
        [ [ {| role := py "assistant"; content := py "Welcome" |} ];
          [];
          [ {| role := py "user"; content := py "hi" |};
            {| role := py "assistant"; content := greeting_response |} ] ]),
       {| world := 0; calls := [] |}))
    by (vm_compute; reflexivity).
  split; [exact Hrun|].
  exact (proj2 (proj2 (proj2 (@chat_in_place_aliasing
                                nat ascii_lower Demo.normalize Demo.engine
                                Demo.knowledge_base _ _ _ _ _ _ _ _ Hv Hrun)
                             eq_refl))).
Defined.

(** X15 on the message " Hey " without history. *)
Lemma chat_on_greeting_witness :
  chat ascii_lower Demo.normalize Demo.engine Demo.knowledge_base
       (py " Hey ") None {| world := 0; calls := [] |}
  = (([ {| role := py "user"; content := py " Hey " |};
        {| role := py "assistant"; content := greeting_response |} ],
      []),
     {| world := 0; calls := [] |}).
Proof.
  apply (@chat_on_greeting
           nat ascii_lower Demo.normalize Demo.engine Demo.knowledge_base
           eq_refl (py " Hey ") None {| world := 0; calls := [] |}).
  vm_compute. do 2 right. left. reflexivity.
Defined.

(** X16 on the local answer to "mess fee". *)
Lemma kept_local_answer_witness :
  keep_app ascii_lower
           (Some (py "Mess fee can be paid online"),
            Some (py "https://hostel.example/fees"), Some (py "fees.png"))
           (py "mess fee") (significant (split (py "mess fee")))
  = (py "Mess fee can be paid online", py "https://hostel.example/fees",
     py "fees.png")
  /\ (3 < List.length (strip (py "Mess fee can be paid online")))%nat.
Proof.
  assert (H : keep_app ascii_lower
                (Some (py "Mess fee can be paid online"),
                 Some (py "https://hostel.example/fees"),
                 Some (py "fees.png"))
                (py "mess fee") (significant (split (py "mess fee")))
              = (py "Mess fee can be paid online",
                 py "https://hostel.example/fees", py "fees.png"))
    by (vm_compute; reflexivity).
  split; [exact H|].
  assert (Hne : py "Mess fee can be paid online" <> []) by discriminate.
  exact (proj1 (proj2 (proj2 (proj2 (proj2
           (@kept_local_answer ascii_lower _ _ _ _ _ _ _ _ H Hne)))))).
Defined.
